(** * A Chord DHT node (cd2024-guiao-2, DHTNode.py): model and properties

    The node is a Python object driven by datagrams.  The development
    follows the source class by class: the Python values that travel in
    envelopes, the [FingerTable] class, the [DHTNode] handlers written in
    a small state-and-exception monad, and the two loops of [run].
    The properties come afterwards.

    Left out of the model: logging (it neither raises nor changes the
    node), [socket.bind] and the receive timeout (the arrivals are
    given), and the thread that sets [done].  [utils.dht_hash] and
    [utils.contains] are not among the sources and are parameters of
    everything that calls them. *)

From Stdlib Require Import ZArith Lia String List Bool DecimalString.
From stdpp Require Import base list.
Import ListNotations.
Local Open Scope string_scope.
Local Open Scope Z_scope.

(** ** Python values

    The fragment of Python's object graph that the protocol puts on the
    wire: [None], integers, strings, tuples (an address is the tuple
    (host, port)) and dictionaries with string keys (envelopes and
    their args). *)

#[local] Set Warnings "-register-all".

Inductive pyval : Type :=
| PNone : pyval
| PInt (z : Z) : pyval
| PStr (s : string) : pyval
| PTuple (items : list pyval) : pyval
| PDict (entries : list (string * pyval)) : pyval.

(** Python's [==] on this fragment.  Values of different types are
    unequal; tuples are compared item by item.  Dictionaries are
    compared entry by entry in insertion order, a comparison the node
    never relies on: it compares against integers and strings, and
    dictionary keys are hashable, so they contain no dictionary. *)
Fixpoint py_eqb (a b : pyval) {struct a} : bool :=
  match a, b with
  | PNone, PNone => true
  | PInt x, PInt y => Z.eqb x y
  | PStr x, PStr y => String.eqb x y
  | PTuple xs, PTuple ys =>
      (fix items (xs ys : list pyval) {struct xs} : bool :=
         match xs, ys with
         | [], [] => true
         | x :: xs', y :: ys' => py_eqb x y && items xs' ys'
         | _, _ => false
         end) xs ys
  | PDict xs, PDict ys =>
      (fix entries (xs ys : list (string * pyval)) {struct xs} : bool :=
         match xs, ys with
         | [], [] => true
         | (k, x) :: xs', (l, y) :: ys' =>
             String.eqb k l && py_eqb x y && entries xs' ys'
         | _, _ => false
         end) xs ys
  | _, _ => false
  end.

(** [hash(v)] succeeds: dictionaries are unhashable, and so is a tuple
    that holds one. *)
Fixpoint hashable (v : pyval) : bool :=
  match v with
  | PDict _ => false
  | PTuple items => forallb hashable items
  | _ => true
  end.

(** ** Exceptions and results *)

Inductive exn : Type :=
| KeyError | TypeError | IndexError | AttributeError | UnpicklingError
| EOFError | ValueError | ImportError.

Inductive result (A : Type) : Type :=
| Ok (a : A)
| Raise (e : exn).
Arguments Ok {A} a.
Arguments Raise {A} e.

(** ** Subscripts, [dict.get], list indexing *)

Fixpoint assoc (k : string) (d : list (string * pyval)) : option pyval :=
  match d with
  | [] => None
  | (k', v) :: d' => if String.eqb k k' then Some v else assoc k d'
  end.

(** [v[k]] for a string key [k]: a dictionary answers or raises
    [KeyError]; nothing else in the fragment can be subscripted by a
    string. *)
Definition getitem (v : pyval) (k : string) : result pyval :=
  match v with
  | PDict d => match assoc k d with
               | Some x => Ok x
               | None => Raise KeyError
               end
  | _ => Raise TypeError
  end.

(** [v.get(k, default)]: only dictionaries have the method. *)
Definition dict_get (v : pyval) (k : string) (default : pyval) : result pyval :=
  match v with
  | PDict d => match assoc k d with
               | Some x => Ok x
               | None => Ok default
               end
  | _ => Raise AttributeError
  end.

(** Python's list index: [-len <= i < len], negative ones counted from
    the end. *)
Definition py_index {A} (l : list A) (i : Z) : option nat :=
  let n := Z.of_nat (length l) in
  if (0 <=? i) && (i <? n) then Some (Z.to_nat i)
  else if (- n <=? i) && (i <? 0) then Some (Z.to_nat (n + i))
  else None.

(** [l[i]] *)
Definition list_getitem {A} (l : list A) (i : Z) : result A :=
  match py_index l i with
  | Some k => match l !! k with
              | Some x => Ok x
              | None => Raise IndexError
              end
  | None => Raise IndexError
  end.

(** [l[i] = x] *)
Definition list_setitem {A} (l : list A) (i : Z) (x : A) : result (list A) :=
  match py_index l i with
  | Some k => Ok (<[k := x]> l)
  | None => Raise IndexError
  end.

(** [index - 1] where [index] is any value: an integer, or a
    [TypeError] ([None - 1], ['a' - 1], ...). *)
Definition py_sub1 (index : pyval) : result Z :=
  match index with
  | PInt i => Ok (i - 1)
  | _ => Raise TypeError
  end.

(** ** The two monads

    A Python call either returns or raises; a method also mutates its
    object, and what it had mutated before it raised stays mutated.
    [result] is the first, [SE S] the second over an object [S]. *)

Definition rbind {A B} (r : result A) (k : A -> result B) : result B :=
  match r with
  | Ok a => k a
  | Raise e => Raise e
  end.

Definition SE (S A : Type) : Type := S -> result A * S.

Definition ret {S A} (a : A) : SE S A := fun s => (Ok a, s).
Definition raise {S A} (e : exn) : SE S A := fun s => (Raise e, s).
Definition bind {S A B} (c : SE S A) (k : A -> SE S B) : SE S B :=
  fun s => match c s with
           | (Ok a, s') => k a s'
           | (Raise e, s') => (Raise e, s')
           end.
Definition lift {S A} (r : result A) : SE S A := fun s => (r, s).
Definition gets {S A} (f : S -> A) : SE S A := fun s => (Ok (f s), s).
Definition modify {S} (f : S -> S) : SE S unit := fun s => (Ok tt, f s).

(** Run a method of a field [T] of the object [S]. *)
Definition zoom {S T A} (proj : S -> T) (upd : T -> S -> S) (c : SE T A) : SE S A :=
  fun s => let '(r, t) := c (proj s) in (r, upd t s).

Declare Scope py_scope.
Delimit Scope py_scope with py.
Notation "x <- c ;; k" := (bind c (fun x => k))
  (at level 20, c at level 99, k at level 200, only parsing) : py_scope.
Notation "c ;; k" := (bind c (fun _ => k))
  (at level 100, k at level 200, right associativity, only parsing) : py_scope.
Notation "'let?' x := r 'in' k" := (rbind r (fun x => k))
  (at level 10, x name, r at level 99, k at level 200, only parsing) : py_scope.
Local Open Scope py_scope.

(** [for x in xs: body] *)
Fixpoint for_each {S A} (xs : list A) (body : A -> SE S unit) : SE S unit :=
  match xs with
  | [] => ret tt
  | x :: xs' => body x ;; for_each xs' body
  end.

(** [range(lo, lo + n)] as integers. *)
Definition range (lo : Z) (n : nat) : list Z :=
  map (fun i => lo + Z.of_nat i) (seq 0 n).

(** ** class FingerTable *)

Module FingerTable.

Record t : Type := mk {
  finger_table : list (pyval * pyval);
  m_bits : nat;
  node_id : Z;
  node_addr : pyval
}.

Definition with_finger_table (l : list (pyval * pyval)) (self : t) : t :=
  {| finger_table := l; m_bits := m_bits self;
     node_id := node_id self; node_addr := node_addr self |}.

(** [FingerTable(node_id, node_addr, m_bits)] *)
Definition __init__ (node_id : Z) (node_addr : pyval) (m_bits : nat) : t :=
  {| finger_table := replicate m_bits (PInt node_id, node_addr);
     m_bits := m_bits; node_id := node_id; node_addr := node_addr |}.

(** [self.finger_table[i] = entry] *)
Definition setitem (i : Z) (entry : pyval * pyval) : SE t unit :=
  l <- gets finger_table ;;
  l' <- lift (list_setitem l i entry) ;;
  modify (with_finger_table l').

Definition fill (node_id node_addr : pyval) : SE t unit :=
  m <- gets m_bits ;;
  for_each (range 1 m) (fun i => setitem (i - 1) (node_id, node_addr)).

Definition update (index node_id node_addr : pyval) : SE t unit :=
  i <- lift (py_sub1 index) ;;
  setitem i (node_id, node_addr).

(** The ring position entry [i + 1] tracks: [(node_id + 2 ** i) % (2 ** m_bits)]. *)
Definition target (self : t) (i : Z) : Z :=
  (node_id self + 2 ^ i) mod (2 ^ Z.of_nat (m_bits self)).

Fixpoint refresh_from (self : t) (idxs : list Z) : result (list (Z * Z * pyval)) :=
  match idxs with
  | [] => Ok []
  | i :: rest =>
      let? e := list_getitem (finger_table self) i in
      let? tl := refresh_from self rest in
      Ok ((i + 1, target self i, snd e) :: tl)
  end.

Definition refresh (self : t) : result (list (Z * Z * pyval)) :=
  refresh_from self (range 0 (m_bits self)).

Section Contains.

(** [utils.contains] is not among the sources; it is taken as a
    parameter, a boolean predicate on three values as the spec
    gives it. *)
Variable contains : pyval -> pyval -> pyval -> bool.

Fixpoint find_from (self : t) (identification : pyval) (idxs : list Z) : result pyval :=
  match idxs with
  | [] =>
      let? e := list_getitem (finger_table self) (-1) in Ok (snd e)
  | i :: rest =>
      let? e := list_getitem (finger_table self) i in
      if contains (PInt (node_id self)) (fst e) identification then
        let? e' := list_getitem (finger_table self) (i - 1) in Ok (snd e')
      else find_from self identification rest
  end.

Definition find (self : t) (identification : pyval) : result pyval :=
  find_from self identification (range 0 (m_bits self)).

Fixpoint getIdxFromId_from (self : t) (id : pyval) (idxs : list Z) : pyval :=
  match idxs with
  | [] => PNone
  | i :: rest =>
      if contains (PInt (node_id self)) (PInt (target self i)) id
      then PInt (i + 1)
      else getIdxFromId_from self id rest
  end.

Definition getIdxFromId (self : t) (id : pyval) : pyval :=
  getIdxFromId_from self id (range 0 (m_bits self)).

End Contains.

End FingerTable.

(** ** What the socket delivers

    [pickle] and [socket] are Python's.  [recvfrom(1024)] hands over
    at most the first 1024 bytes of a datagram; a longer one is cut
    there.  The payload is kept as what [pickle.loads] makes of the
    bytes handed over: [Pickled v] when they unpickle to the value [v];
    [Rejected e] when [pickle.loads] raises [e] on them
    ([UnpicklingError] on bytes that are no pickle, [EOFError] on a
    pickle that stops short, and others: which one is the library's
    matter and is given with the arrival); [Empty] for the zero-length
    datagram.  What a datagram sent by one node is read as by the next
    is therefore not fixed by the model: an envelope whose pickle is
    longer than 1024 bytes does not arrive as [Pickled] of itself.
    [sendto] is modelled as recording the datagram; transport failures
    are not modelled. *)

Inductive payload : Type :=
| Pickled (v : pyval)
| Rejected (e : exn)
| Empty.

Inductive arrival : Type :=
| TimedOut
| Datagram (p : payload) (source : pyval).

(** [len(payload) == 0] *)
Definition payload_is_empty (p : payload) : bool :=
  match p with
  | Empty => true
  | _ => false
  end.

(** [pickle.loads(payload)]; on no bytes at all it raises [EOFError]. *)
Definition pickle_loads (p : payload) : result pyval :=
  match p with
  | Pickled v => Ok v
  | Rejected e => Raise e
  | Empty => Raise EOFError
  end.

(** ** The key/value store, a Python [dict] keyed by hashable values *)

Definition store : Type := list (pyval * pyval).

Fixpoint store_lookup (key : pyval) (d : store) : option pyval :=
  match d with
  | [] => None
  | (k, v) :: d' => if py_eqb key k then Some v else store_lookup key d'
  end.

(** [key in d] *)
Definition store_contains (key : pyval) (d : store) : result bool :=
  if hashable key then
    Ok (match store_lookup key d with Some _ => true | None => false end)
  else Raise TypeError.

Fixpoint store_assign (key value : pyval) (d : store) : store :=
  match d with
  | [] => [(key, value)]
  | (k, v) :: d' =>
      if py_eqb key k then (k, value) :: d' else (k, v) :: store_assign key value d'
  end.

(** [d[key] = value] *)
Definition store_setitem (key value : pyval) (d : store) : result store :=
  if hashable key then Ok (store_assign key value d) else Raise TypeError.

(** [d[key]] *)
Definition store_getitem (key : pyval) (d : store) : result pyval :=
  if hashable key then
    match store_lookup key d with
    | Some v => Ok v
    | None => Raise KeyError
    end
  else Raise TypeError.

(** ** class DHTNode *)

Module DHTNode.

Definition datagram : Type := pyval * pyval.

Record t : Type := mk {
  done : bool;
  identification : Z;
  addr : pyval;
  dht_address : pyval;
  inside_dht : bool;
  successor_id : pyval;
  successor_addr : pyval;
  predecessor_id : pyval;
  predecessor_addr : pyval;
  finger_table : FingerTable.t;
  keystore : store;
  (** the socket, as what has been handed to [sendto], oldest first:
      (destination address, message before pickling) *)
  socket : list datagram
}.

Definition with_inside_dht (b : bool) (self : t) : t :=
  mk (done self) (identification self) (addr self) (dht_address self)
     b (successor_id self) (successor_addr self)
     (predecessor_id self) (predecessor_addr self)
     (finger_table self) (keystore self) (socket self).

Definition with_successor_id (v : pyval) (self : t) : t :=
  mk (done self) (identification self) (addr self) (dht_address self)
     (inside_dht self) v (successor_addr self)
     (predecessor_id self) (predecessor_addr self)
     (finger_table self) (keystore self) (socket self).

Definition with_successor_addr (v : pyval) (self : t) : t :=
  mk (done self) (identification self) (addr self) (dht_address self)
     (inside_dht self) (successor_id self) v
     (predecessor_id self) (predecessor_addr self)
     (finger_table self) (keystore self) (socket self).

Definition with_predecessor_id (v : pyval) (self : t) : t :=
  mk (done self) (identification self) (addr self) (dht_address self)
     (inside_dht self) (successor_id self) (successor_addr self)
     v (predecessor_addr self)
     (finger_table self) (keystore self) (socket self).

Definition with_predecessor_addr (v : pyval) (self : t) : t :=
  mk (done self) (identification self) (addr self) (dht_address self)
     (inside_dht self) (successor_id self) (successor_addr self)
     (predecessor_id self) v
     (finger_table self) (keystore self) (socket self).

Definition with_finger_table (ft : FingerTable.t) (self : t) : t :=
  mk (done self) (identification self) (addr self) (dht_address self)
     (inside_dht self) (successor_id self) (successor_addr self)
     (predecessor_id self) (predecessor_addr self)
     ft (keystore self) (socket self).

Definition with_keystore (d : store) (self : t) : t :=
  mk (done self) (identification self) (addr self) (dht_address self)
     (inside_dht self) (successor_id self) (successor_addr self)
     (predecessor_id self) (predecessor_addr self)
     (finger_table self) d (socket self).

Definition with_socket (out : list datagram) (self : t) : t :=
  mk (done self) (identification self) (addr self) (dht_address self)
     (inside_dht self) (successor_id self) (successor_addr self)
     (predecessor_id self) (predecessor_addr self)
     (finger_table self) (keystore self) out.

(** A method call on [self.finger_table]. *)
Definition on_finger_table {A} (c : SE FingerTable.t A) : SE t A :=
  zoom finger_table with_finger_table c.

(** Envelopes, as the dictionary literals of the source. *)
Definition envelope (method : string) (args : pyval) : pyval :=
  PDict [("method", PStr method); ("args", args)].

Definition bare (method : string) : pyval :=
  PDict [("method", PStr method)].

Definition send (address msg : pyval) : SE t unit :=
  modify (fun self => with_socket (socket self ++ [(address, msg)]) self).

(** [recv]: [(None, None)] on a timeout, [(None, addr)] on a
    zero-length datagram, else the payload [recvfrom(1024)] handed
    over (the first 1024 bytes at most) and the sender's address. *)
Definition recv (a : arrival) : option payload * pyval :=
  match a with
  | TimedOut => (None, PNone)
  | Datagram p source =>
      if payload_is_empty p then (None, source) else (Some p, source)
  end.

Definition self_ : SE t t := gets (fun self => self).

Definition is_none (v : pyval) : bool :=
  match v with
  | PNone => true
  | _ => false
  end.

Section Utils.

(** [utils.py] ([dht_hash], [contains]) is not among the sources:
    both are taken as parameters, with the signatures the spec
    gives them, [hash(key) -> Identifier] and
    [contains(origin, boundary, id) -> bool].  [py_str] is Python's
    [str()], used once to derive the node's identifier from its
    address. *)
Variable dht_hash : pyval -> Z.
Variable contains : pyval -> pyval -> pyval -> bool.
Variable py_str : pyval -> string.

(** [DHTNode(address, dht_address)]; the receive timeout only
    configures the socket. *)
Definition __init__ (address dht_address : pyval) : t :=
  let identification := dht_hash (PStr (py_str address)) in
  let finger_table := FingerTable.__init__ identification address 10 in
  if is_none dht_address then
    {| done := false; identification := identification; addr := address;
       dht_address := dht_address; inside_dht := true;
       successor_id := PInt identification; successor_addr := address;
       predecessor_id := PNone; predecessor_addr := PNone;
       finger_table := finger_table; keystore := []; socket := [] |}
  else
    {| done := false; identification := identification; addr := address;
       dht_address := dht_address; inside_dht := false;
       successor_id := PNone; successor_addr := PNone;
       predecessor_id := PNone; predecessor_addr := PNone;
       finger_table := finger_table; keystore := []; socket := [] |}.

(** Process JOIN_REQ. *)
Definition node_join (args : pyval) : SE t unit :=
  addr' <- lift (getitem args "addr") ;;
  identification' <- lift (getitem args "id") ;;
  self <- self_ ;;
  if py_eqb (PInt (identification self)) (successor_id self) then
    modify (with_successor_id identification') ;;
    modify (with_successor_addr addr') ;;
    on_finger_table (FingerTable.fill identification' addr') ;;
    let args := PDict [("successor_id", PInt (identification self));
                       ("successor_addr", addr self)] in
    send addr' (envelope "JOIN_REP" args)
  else if contains (PInt (identification self)) (successor_id self) identification' then
    let args := PDict [("successor_id", successor_id self);
                       ("successor_addr", successor_addr self)] in
    modify (with_successor_id identification') ;;
    modify (with_successor_addr addr') ;;
    on_finger_table (FingerTable.fill identification' addr') ;;
    send addr' (envelope "JOIN_REP" args)
  else
    send (successor_addr self) (envelope "JOIN_REQ" args).

(** Process SUCCESSOR. *)
Definition get_successor (args : pyval) : SE t unit :=
  asking_id <- lift (getitem args "id") ;;
  asking_addr <- lift (getitem args "from") ;;
  self <- self_ ;;
  if contains (PInt (identification self)) (successor_id self) asking_id then
    send asking_addr
         (envelope "SUCCESSOR_REP"
            (PDict [("req_id", asking_id);
                    ("successor_id", successor_id self);
                    ("successor_addr", successor_addr self)]))
  else
    send (successor_addr self)
         (envelope "SUCCESSOR" (PDict [("id", asking_id); ("from", asking_addr)])).

(** Process NOTIFY. *)
Definition notify (args : pyval) : SE t unit :=
  self <- self_ ;;
  adopt <- (if is_none (predecessor_id self) then ret true
            else candidate <- lift (getitem args "predecessor_id") ;;
                 ret (contains (predecessor_id self) (PInt (identification self)) candidate)) ;;
  if adopt : bool then
    predecessor_id' <- lift (getitem args "predecessor_id") ;;
    modify (with_predecessor_id predecessor_id') ;;
    predecessor_addr' <- lift (getitem args "predecessor_addr") ;;
    modify (with_predecessor_addr predecessor_addr')
  else ret tt.

(** The block of [stabilize] under the banner "refresh finger_table":
    a SUCCESSOR lookup, run by the node on itself, for the target of
    each entry. *)
Definition refresh_finger_table : SE t unit :=
  entries <- on_finger_table (fun ft => (FingerTable.refresh ft, ft)) ;;
  let lenght := length entries in
  for_each (range 0 lenght) (fun i =>
    entries <- on_finger_table (fun ft => (FingerTable.refresh ft, ft)) ;;
    entry <- lift (list_getitem entries i) ;;
    self <- self_ ;;
    get_successor (PDict [("id", PInt (snd (fst entry))); ("from", addr self)])).

(** Process STABILIZE: [from_id] is the id of the predecessor of
    the node with address [addr'], the sender of the message. *)
Definition stabilize (from_id addr' : pyval) : SE t unit :=
  self <- self_ ;;
  (if negb (is_none from_id)
      && contains (PInt (identification self)) (successor_id self) from_id
   then
     modify (with_successor_id from_id) ;;
     modify (with_successor_addr addr') ;;
     self <- self_ ;;
     on_finger_table
       (FingerTable.update (PInt 1) (successor_id self) (successor_addr self))
   else ret tt) ;;
  (* notify successor of our existence *)
  self <- self_ ;;
  let args := PDict [("predecessor_id", PInt (identification self));
                     ("predecessor_addr", addr self)] in
  send (successor_addr self) (envelope "NOTIFY" args) ;;
  refresh_finger_table.

Definition put_msg (key value address : pyval) : pyval :=
  envelope "PUT" (PDict [("key", key); ("value", value); ("from", address)]).

Definition get_msg (key address : pyval) : pyval :=
  envelope "GET" (PDict [("key", key); ("from", address)]).

(** Store value in DHT. *)
Definition put (key value address : pyval) : SE t unit :=
  let key_hash := PInt (dht_hash key) in
  self <- self_ ;;
  if contains (PInt (identification self)) (successor_id self) key_hash then
    send (successor_addr self) (put_msg key value address)
  else if contains (predecessor_id self) (PInt (identification self)) key_hash then
    present <- lift (store_contains key (keystore self)) ;;
    if negb present then
      keystore' <- lift (store_setitem key value (keystore self)) ;;
      modify (with_keystore keystore') ;;
      send address (bare "ACK")
    else
      send address (bare "NACK")
  else
    hop <- lift (FingerTable.find contains (finger_table self) key_hash) ;;
    send hop (put_msg key value address).

(** Retrieve value from DHT. *)
Definition get (key address : pyval) : SE t unit :=
  let key_hash := PInt (dht_hash key) in
  self <- self_ ;;
  if contains (PInt (identification self)) (successor_id self) key_hash then
    send (successor_addr self) (get_msg key address)
  else if contains (predecessor_id self) (PInt (identification self)) key_hash then
    present <- lift (store_contains key (keystore self)) ;;
    if present : bool then
      value <- lift (store_getitem key (keystore self)) ;;
      send address (envelope "ACK" value)
    else
      send address (bare "NACK")
  else
    hop <- lift (FingerTable.find contains (finger_table self) key_hash) ;;
    send hop (get_msg key address).

(** [output["method"] == name] *)
Definition method_is (output : pyval) (name : string) : SE t bool :=
  method <- lift (getitem output "method") ;;
  ret (py_eqb method (PStr name)).

(** [output["args"][field]] *)
Definition arg (output : pyval) (field : string) : SE t pyval :=
  lift (let? args := getitem output "args" in getitem args field).

(** The SUCCESSOR_REP branch of [run]. *)
Definition successor_rep (output : pyval) : SE t unit :=
  index <- arg output "req_id" ;;
  succ_id <- arg output "successor_id" ;;
  succ_addr <- arg output "successor_addr" ;;
  on_finger_table
    (idx <- gets (fun ft => FingerTable.getIdxFromId contains ft index) ;;
     FingerTable.update idx succ_id succ_addr).

(** The PREDECESSOR branch of [run]: reply with predecessor id. *)
Definition predecessor (addr' : pyval) : SE t unit :=
  self <- self_ ;;
  send addr' (envelope "STABILIZE" (predecessor_id self)).

(** One turn of [while not self.done] in [run]. *)
Definition run_iteration (a : arrival) : SE t unit :=
  let '(payload, addr') := recv a in
  match payload with
  | Some payload =>
      output <- lift (pickle_loads payload) ;;
      is_join_req <- method_is output "JOIN_REQ" ;;
      if is_join_req : bool then
        args <- lift (getitem output "args") ;;
        node_join args
      else
      is_notify <- method_is output "NOTIFY" ;;
      if is_notify : bool then
        args <- lift (getitem output "args") ;;
        notify args
      else
      is_put <- method_is output "PUT" ;;
      if is_put : bool then
        key <- arg output "key" ;;
        value <- arg output "value" ;;
        args <- lift (getitem output "args") ;;
        from <- lift (dict_get args "from" addr') ;;
        put key value from
      else
      is_get <- method_is output "GET" ;;
      if is_get : bool then
        key <- arg output "key" ;;
        args <- lift (getitem output "args") ;;
        from <- lift (dict_get args "from" addr') ;;
        get key from
      else
      is_predecessor <- method_is output "PREDECESSOR" ;;
      if is_predecessor : bool then
        predecessor addr'
      else
      is_successor <- method_is output "SUCCESSOR" ;;
      if is_successor : bool then
        args <- lift (getitem output "args") ;;
        get_successor args
      else
      is_stabilize <- method_is output "STABILIZE" ;;
      if is_stabilize : bool then
        args <- lift (getitem output "args") ;;
        stabilize args addr'
      else
      is_successor_rep <- method_is output "SUCCESSOR_REP" ;;
      if is_successor_rep : bool then
        successor_rep output
      else ret tt
  | None =>
      (* timeout occurred: ask successor for predecessor *)
      self <- self_ ;;
      send (successor_addr self) (bare "PREDECESSOR")
  end.

(** The JOIN_REP branch of the joining loop. *)
Definition join_rep (output : pyval) : SE t unit :=
  args <- lift (getitem output "args") ;;
  successor_id' <- lift (getitem args "successor_id") ;;
  modify (with_successor_id successor_id') ;;
  successor_addr' <- lift (getitem args "successor_addr") ;;
  modify (with_successor_addr successor_addr') ;;
  self <- self_ ;;
  on_finger_table (FingerTable.fill (successor_id self) (successor_addr self)) ;;
  modify (with_inside_dht true).

(** One turn of [while not self.inside_dht] in [run]. *)
Definition join_iteration (a : arrival) : SE t unit :=
  self <- self_ ;;
  let join_msg :=
    envelope "JOIN_REQ"
      (PDict [("addr", addr self); ("id", PInt (identification self))]) in
  send (dht_address self) join_msg ;;
  let '(payload, addr') := recv a in
  match payload with
  | Some payload =>
      output <- lift (pickle_loads payload) ;;
      is_join_rep <- method_is output "JOIN_REP" ;;
      if is_join_rep : bool then join_rep output else ret tt
  | None => ret tt
  end.

(** [run] over the arrivals the socket delivers, in order: the
    joining loop until [inside_dht], then the serving loop until
    [done] (set from outside the thread) or until the arrivals
    observed are used up.  An exception leaves both loops. *)
Fixpoint join_loop (arrivals : list arrival) : SE t (list arrival) :=
  match arrivals with
  | [] => ret []
  | a :: rest =>
      inside <- gets inside_dht ;;
      if inside : bool then ret arrivals
      else join_iteration a ;; join_loop rest
  end.

Fixpoint serve_loop (arrivals : list arrival) : SE t unit :=
  match arrivals with
  | [] => ret tt
  | a :: rest =>
      stop <- gets done ;;
      if stop : bool then ret tt
      else run_iteration a ;; serve_loop rest
  end.

Definition run (arrivals : list arrival) : SE t unit :=
  rest <- join_loop arrivals ;;
  serve_loop rest.

End Utils.

End DHTNode.

(** ** Instances of the parameters, for runs on concrete input *)

Module Ring.

(** Modelled from the spec: [utils.contains] is not among the
    sources.  The spec (4.1) makes [contains(origin, boundary, id)]
    true iff [id] lies in the interval that starts just after
    [origin] and ends at [boundary] inclusive, wrapping around when
    [boundary < origin] numerically.  Identifiers are integers; on
    anything else the spec is silent and this model answers [false]. *)
Definition contains (origin boundary id : pyval) : bool :=
  match origin, boundary, id with
  | PInt o, PInt b, PInt x =>
      if b <? o then (o <? x) || (x <=? b)
      else (o <? x) && (x <=? b)
  | _, _, _ => false
  end.

(** Modelled from the spec: [utils.dht_hash] is not among the
    sources.  The spec (4.1) asks for a deterministic map of a string
    key into [[0, 2^m)], the same on every node, with [m = 10]; this
    instance adds up the character codes modulo [2^10]. *)
Definition dht_hash (key : pyval) : Z :=
  match key with
  | PStr s =>
      (fold_right (fun c acc => Z.of_nat (Ascii.nat_of_ascii c) + acc) 0
                  (list_ascii_of_string s)) mod 2 ^ 10
  | _ => 0
  end.

End Ring.

(** * Vocabulary of the properties *)

(** Entry [i] of a finger table, counted from 1 as the spec counts
    them; there is no entry 0. *)
Definition entry (ft : FingerTable.t) (i : nat) : option (pyval * pyval) :=
  match i with
  | O => None
  | S k => FingerTable.finger_table ft !! k
  end.

(** A table as [FingerTable.__init__] builds it and as every method
    leaves it: exactly [m_bits] entries. *)
Definition table_wf (ft : FingerTable.t) : Prop :=
  length (FingerTable.finger_table ft) = FingerTable.m_bits ft.

Section Scan.

Variable contains : pyval -> pyval -> pyval -> bool.

(** The test [find] applies to an entry. *)
Definition hit (ft : FingerTable.t) (identification : pyval) (e : pyval * pyval) : bool :=
  contains (PInt (FingerTable.node_id ft)) (fst e) identification.

(** Entry [i] is the first one, in table order, that passes the test. *)
Definition first_hit (ft : FingerTable.t) (identification : pyval)
    (i : nat) (e : pyval * pyval) : Prop :=
  entry ft i = Some e /\ hit ft identification e = true /\
  forall j e', (j < i)%nat -> entry ft j = Some e' -> hit ft identification e' = false.

Definition no_hit (ft : FingerTable.t) (identification : pyval) : Prop :=
  forall j e', entry ft j = Some e' -> hit ft identification e' = false.

End Scan.

(** A node whose finger table is well formed. *)
Definition node_wf (self : DHTNode.t) : Prop :=
  table_wf (DHTNode.finger_table self).

(** The node after it adopted [(id, addr)] as successor and filled its
    finger table with it; nothing else changes. *)
Definition adopt_successor (id addr : pyval) (self : DHTNode.t) : DHTNode.t :=
  DHTNode.with_finger_table
    (FingerTable.with_finger_table
       (replicate (FingerTable.m_bits (DHTNode.finger_table self)) (id, addr))
       (DHTNode.finger_table self))
    (DHTNode.with_successor_addr addr (DHTNode.with_successor_id id self)).

(** The node after one more datagram left through its socket. *)
Definition sent (address msg : pyval) (self : DHTNode.t) : DHTNode.t :=
  DHTNode.with_socket (DHTNode.socket self ++ [(address, msg)]) self.

Section Routing.

Variable dht_hash : pyval -> Z.
Variable contains : pyval -> pyval -> pyval -> bool.

(** The two tests [put] and [get] make, in the order they make them. *)
Definition toward_successor (self : DHTNode.t) (key : pyval) : bool :=
  contains (PInt (DHTNode.identification self)) (DHTNode.successor_id self)
    (PInt (dht_hash key)).

Definition behind_predecessor (self : DHTNode.t) (key : pyval) : bool :=
  contains (DHTNode.predecessor_id self) (PInt (DHTNode.identification self))
    (PInt (dht_hash key)).

End Routing.

(** The verbs the serving loop dispatches on. *)
Definition handled_methods : list string :=
  ["JOIN_REQ"; "NOTIFY"; "PUT"; "GET"; "PREDECESSOR"; "SUCCESSOR"; "STABILIZE";
   "SUCCESSOR_REP"].

(** [method] compares unequal to each of them. *)
Definition unhandled (method : pyval) : bool :=
  forallb (fun name => negb (py_eqb method (PStr name))) handled_methods.

(** [method] is one of the verbs whose branch reads [output["args"]]:
    all the handled ones but PREDECESSOR. *)
Definition reads_args (method : pyval) : bool :=
  existsb (fun name => py_eqb method (PStr name))
    ["JOIN_REQ"; "NOTIFY"; "PUT"; "GET"; "SUCCESSOR"; "STABILIZE"; "SUCCESSOR_REP"].

(** A computation keeps a relation [R] between the object before and
    the object after, whether it returns or raises. *)
Definition preserves {S A : Type} (R : S -> S -> Prop) (c : SE S A) : Prop :=
  forall s, R s (snd (c s)).

(** The store is the same. *)
Definition same_keystore (s s' : DHTNode.t) : Prop :=
  DHTNode.keystore s' = DHTNode.keystore s.

(** The successor and the finger table are the same. *)
Definition same_links (s s' : DHTNode.t) : Prop :=
  DHTNode.successor_id s' = DHTNode.successor_id s /\
  DHTNode.successor_addr s' = DHTNode.successor_addr s /\
  DHTNode.finger_table s' = DHTNode.finger_table s.

Section OwnedPut.

Variable dht_hash : pyval -> Z.
Variable contains : pyval -> pyval -> pyval -> bool.

(** The arrival [a] is a PUT of [(key, value)] that the node [self]
    handles itself, for a key its store lacks. *)
Definition owned_fresh_put (self : DHTNode.t) (a : arrival) (key value : pyval) : Prop :=
  exists output args source,
    a = Datagram (Pickled output) source /\
    getitem output "method" = Ok (PStr "PUT") /\
    getitem output "args" = Ok args /\
    getitem args "key" = Ok key /\
    getitem args "value" = Ok value /\
    toward_successor dht_hash contains self key = false /\
    behind_predecessor dht_hash contains self key = true /\
    store_contains key (DHTNode.keystore self) = Ok false.

End OwnedPut.

Section Stabilize.

Variable contains : pyval -> pyval -> pyval -> bool.

(** What the node's own SUCCESSOR handler sends for a lookup of
    [target] with the node itself as the asker: the answer, to itself,
    when the target is between the node and its successor; the request,
    to the successor, otherwise. *)
Definition lookup_datagram (self : DHTNode.t) (target : Z) : DHTNode.datagram :=
  if contains (PInt (DHTNode.identification self)) (DHTNode.successor_id self) (PInt target)
  then (DHTNode.addr self,
        DHTNode.envelope "SUCCESSOR_REP"
          (PDict [("req_id", PInt target);
                  ("successor_id", DHTNode.successor_id self);
                  ("successor_addr", DHTNode.successor_addr self)]))
  else (DHTNode.successor_addr self,
        DHTNode.envelope "SUCCESSOR"
          (PDict [("id", PInt target); ("from", DHTNode.addr self)])).

(** The test STABILIZE makes on the reported predecessor id. *)
Definition tightens (self : DHTNode.t) (from_id : pyval) : bool :=
  negb (DHTNode.is_none from_id)
  && contains (PInt (DHTNode.identification self)) (DHTNode.successor_id self) from_id.

End Stabilize.

(** The refresh targets of a table, entry 1 first. *)
Definition refresh_targets (ft : FingerTable.t) : list Z :=
  map (FingerTable.target ft) (range 0 (FingerTable.m_bits ft)).

(** The node with [(id, addr)] as successor and as entry 1 of its table. *)
Definition tighten (id addr : pyval) (self : DHTNode.t) : DHTNode.t :=
  DHTNode.with_finger_table
    (FingerTable.with_finger_table
       (<[0%nat := (id, addr)]> (FingerTable.finger_table (DHTNode.finger_table self)))
       (DHTNode.finger_table self))
    (DHTNode.with_successor_addr addr (DHTNode.with_successor_id id self)).

(** The NOTIFY by which a node announces itself as predecessor. *)
Definition notify_msg (self : DHTNode.t) : pyval :=
  DHTNode.envelope "NOTIFY"
    (PDict [("predecessor_id", PInt (DHTNode.identification self));
            ("predecessor_addr", DHTNode.addr self)]).


Section Handlers.

Variable dht_hash : pyval -> Z.
Variable contains : pyval -> pyval -> pyval -> bool.


End Handlers.

(** Two tables of the same shape: as many entries, the same [m_bits]. *)
Definition same_shape (t t' : FingerTable.t) : Prop :=
  length (FingerTable.finger_table t') = length (FingerTable.finger_table t) /\
  FingerTable.m_bits t' = FingerTable.m_bits t.

Definition same_table_shape (s s' : DHTNode.t) : Prop :=
  same_shape (DHTNode.finger_table s) (DHTNode.finger_table s').

(** The node's identity and its place in the life cycle: the fields no
    handler assigns, and [inside_dht], which is only ever set. *)
Definition same_identity (s s' : DHTNode.t) : Prop :=
  DHTNode.identification s' = DHTNode.identification s /\
  DHTNode.addr s' = DHTNode.addr s /\
  DHTNode.dht_address s' = DHTNode.dht_address s /\
  DHTNode.done s' = DHTNode.done s /\
  FingerTable.node_id (DHTNode.finger_table s') = FingerTable.node_id (DHTNode.finger_table s) /\
  FingerTable.node_addr (DHTNode.finger_table s')
  = FingerTable.node_addr (DHTNode.finger_table s) /\
  (DHTNode.inside_dht s = true -> DHTNode.inside_dht s' = true).

(** The owner recorded in a table is the same. *)
Definition same_owner (t t' : FingerTable.t) : Prop :=
  FingerTable.node_id t' = FingerTable.node_id t /\
  FingerTable.node_addr t' = FingerTable.node_addr t.

(** Every key the store held, it still holds, with the same value. *)
Definition keystore_grows (s s' : DHTNode.t) : Prop :=
  forall key value,
    store_lookup key (DHTNode.keystore s) = Some value ->
    store_lookup key (DHTNode.keystore s') = Some value.

Section Delivery.

Variable dht_hash : pyval -> Z.
Variable contains : pyval -> pyval -> pyval -> bool.

(** The node after a turn of the serving loop in which the message
    [msg] arrived from the address [source]. *)
Definition handle (source msg : pyval) (self : DHTNode.t) : DHTNode.t :=
  snd (DHTNode.run_iteration dht_hash contains (Datagram (Pickled msg) source) self).

(** The node after a turn of the serving loop in which nothing arrived. *)
Definition idle (self : DHTNode.t) : DHTNode.t :=
  snd (DHTNode.run_iteration dht_hash contains TimedOut self).

End Delivery.

(** The JOIN_REQ a joining node sends. *)
Definition join_req_msg (self : DHTNode.t) : pyval :=
  DHTNode.envelope "JOIN_REQ"
    (PDict [("addr", DHTNode.addr self); ("id", PInt (DHTNode.identification self))]).

(** An arrival the joining loop does nothing with: a timeout, an empty
    datagram, or an envelope whose method is not JOIN_REP. *)
Definition ignored_while_joining (a : arrival) : bool :=
  match DHTNode.recv a with
  | (None, _) => true
  | (Some payload, _) =>
      match pickle_loads payload with
      | Ok output =>
          match getitem output "method" with
          | Ok method => negb (py_eqb method (PStr "JOIN_REP"))
          | Raise _ => false
          end
      | Raise _ => false
      end
  end.

Section Cover.

Variable contains : pyval -> pyval -> pyval -> bool.

(** The test [getIdxFromId] applies at index [i], counted from 1:
    [contains(node_id, (node_id + 2^(i-1)) mod 2^m_bits, id)]. *)
Definition covers (ft : FingerTable.t) (id : pyval) (i : nat) : bool :=
  contains (PInt (FingerTable.node_id ft))
    (PInt ((FingerTable.node_id ft + 2 ^ (Z.of_nat i - 1))
           mod 2 ^ Z.of_nat (FingerTable.m_bits ft)))
    id.

End Cover.

(** [contains] is the ring interval of the spec on identifiers below
    [N]: for [origin <> boundary], [id] is in it iff walking clockwise
    from [origin] one meets [id] after at least one step and no later
    than [boundary].  (What [contains] answers when origin and boundary
    coincide is left open.) *)
Definition ring_interval (contains : pyval -> pyval -> pyval -> bool) (N : Z) : Prop :=
  forall o b x,
    0 <= o < N -> 0 <= b < N -> 0 <= x < N -> o <> b ->
    (contains (PInt o) (PInt b) (PInt x) = true <-> 0 < (x - o) mod N <= (b - o) mod N).

(** * Concrete nodes and tables, for runs on explicit input *)

Module Sample.

(** An address as the nodes use it: the tuple (host, port). *)
Definition host (port : Z) : pyval := PTuple [PStr "localhost"; PInt port].

(** A three-entry table of node 0, its entries pointing at nodes 5, 7 and 9. *)
Definition three_fingers : FingerTable.t :=
  {| FingerTable.finger_table :=
       [(PInt 5, host 5005); (PInt 7, host 5007); (PInt 9, host 5009)];
     FingerTable.m_bits := 3;
     FingerTable.node_id := 0;
     FingerTable.node_addr := host 5000 |}.

(** The node [DHTNode(address)] whose address hashes to [id]: a ring of one. *)
Definition singleton (id : Z) (address : pyval) : DHTNode.t :=
  {| DHTNode.done := false; DHTNode.identification := id; DHTNode.addr := address;
     DHTNode.dht_address := PNone; DHTNode.inside_dht := true;
     DHTNode.successor_id := PInt id; DHTNode.successor_addr := address;
     DHTNode.predecessor_id := PNone; DHTNode.predecessor_addr := PNone;
     DHTNode.finger_table := FingerTable.__init__ id address 10;
     DHTNode.keystore := []; DHTNode.socket := [] |}.

(** The node's state after the serving loop took the given arrivals. *)
Definition after (arrivals : list arrival) (self : DHTNode.t) : DHTNode.t :=
  snd (DHTNode.serve_loop Ring.dht_hash Ring.contains arrivals self).

Definition join_args (id : Z) : pyval :=
  PDict [("addr", host (5000 + id)); ("id", PInt id)].

Definition notify_args (id : Z) : pyval :=
  PDict [("predecessor_id", PInt id); ("predecessor_addr", host (5000 + id))].

(** A datagram from the node with identifier [id]. *)
Definition from_node (id : Z) (msg : pyval) : arrival :=
  Datagram (Pickled msg) (host (5000 + id)).

(** Node 110 alone in the ring. *)
Definition n110 : DHTNode.t := singleton 110 (host 5110).

(** Node 110 after node 108 joined through it: 108 is its successor. *)
Definition n110_108 : DHTNode.t :=
  after [from_node 108 (DHTNode.envelope "JOIN_REQ" (join_args 108))] n110.

(** Node 110 in a ring of two with node 108: successor and predecessor. *)
Definition n110_ring2 : DHTNode.t :=
  after [from_node 108 (DHTNode.envelope "NOTIFY" (notify_args 108))] n110_108.

(** Node 110, alone, hears NOTIFY from node 105 and then admits node
    108: its predecessor is 105 and its successor 108. *)
Definition n110_between : DHTNode.t :=
  after [from_node 105 (DHTNode.envelope "NOTIFY" (notify_args 105));
         from_node 108 (DHTNode.envelope "JOIN_REQ" (join_args 108))] n110.

(** A client's address. *)
Definition client : pyval := host 6000.

(** A SUCCESSOR_REP answering a lookup of [req_id] with node [id]. *)
Definition successor_rep_msg (req_id id : Z) : pyval :=
  DHTNode.envelope "SUCCESSOR_REP"
    (PDict [("req_id", PInt req_id); ("successor_id", PInt id);
            ("successor_addr", host (5000 + id))]).

(** A client's PUT and GET, as the client library sends them: no reply
    address in the args, the datagram's source stands in. *)
Definition client_put (key value : string) : arrival :=
  Datagram
    (Pickled (DHTNode.envelope "PUT" (PDict [("key", PStr key); ("value", PStr value)])))
    client.

(** Bytes that are no pickle, such as [ff 00]: [pickle.loads] raises
    [UnpicklingError] (invalid load key). *)
Definition garbage : arrival := Datagram (Rejected UnpicklingError) client.

(** A pickle that stops short, such as [80 04]: [pickle.loads] raises
    [EOFError] (ran out of input). *)
Definition truncated : arrival := Datagram (Rejected EOFError) client.

(** Node 100 with node 108 as successor. *)
Definition n100_108 : DHTNode.t :=
  after [from_node 108 (DHTNode.envelope "JOIN_REQ" (join_args 108))]
        (singleton 100 (host 5100)).

(** Node 108, which has heard NOTIFY from node 105, its predecessor
    at the address [host 5105]. *)
Definition n108_pred105 : DHTNode.t :=
  after [from_node 105 (DHTNode.envelope "NOTIFY" (notify_args 105))]
        (singleton 108 (host 5108)).

(** For an identifier [h] of the ring of 1024: the node three places
    after [h], with the node one place after [h] as successor and the
    node two places before [h] as predecessor. *)
Definition around (h : Z) : DHTNode.t :=
  let id := (h + 3) mod 1024 in
  let successor := (PInt ((h + 1) mod 1024), host 5001) in
  {| DHTNode.done := false; DHTNode.identification := id; DHTNode.addr := host 5003;
     DHTNode.dht_address := PNone; DHTNode.inside_dht := true;
     DHTNode.successor_id := fst successor; DHTNode.successor_addr := snd successor;
     DHTNode.predecessor_id := PInt ((h - 2) mod 1024);
     DHTNode.predecessor_addr := host 4998;
     DHTNode.finger_table :=
       FingerTable.mk (replicate 10 successor) 10 id (host 5003);
     DHTNode.keystore := []; DHTNode.socket := [] |}.

(** Python's [str] on the values an address is made of: [None],
    integers in decimal, tuples with their items as [repr] shows them,
    a string in single quotes (escapes are not modelled; no address
    needs them).  At the top a string is itself. *)
Fixpoint py_repr (v : pyval) : string :=
  match v with
  | PNone => "None"
  | PInt z => NilZero.string_of_int (Z.to_int z)
  | PStr s => "'" ++ s ++ "'"
  | PTuple vs =>
      "("
      ++ (fix items (l : list pyval) : string :=
            match l with
            | [] => ""
            | [x] => py_repr x
            | x :: rest => py_repr x ++ ", " ++ items rest
            end) vs
      ++ match vs with [_] => ",)" | _ => ")" end
  | PDict kvs =>
      "{"
      ++ (fix items (l : list (string * pyval)) : string :=
            match l with
            | [] => ""
            | [(k, x)] => "'" ++ k ++ "': " ++ py_repr x
            | (k, x) :: rest => "'" ++ k ++ "': " ++ py_repr x ++ ", " ++ items rest
            end) kvs
      ++ "}"
  end.

Definition py_str (v : pyval) : string :=
  match v with
  | PStr s => s
  | _ => py_repr v
  end.

(** [DHTNode(address)] and [DHTNode(address, dht_address)] on the ring
    of 1024. *)
Definition node (address dht_address : pyval) : DHTNode.t :=
  DHTNode.__init__ Ring.dht_hash py_str address dht_address.

(** A node at port 5108 that has yet to join through the node at 5110. *)
Definition joining : DHTNode.t := node (host 5108) (host 5110).

End Sample.

(** * Properties *)

(** The spec's test vectors for [contains] (section 8), modulus 1024. *)
Example contains_wraps_through_zero :
  Ring.contains (PInt 1000) (PInt 50) (PInt 0) = true.
Proof. reflexivity. Qed.

Example contains_excludes_before_origin :
  Ring.contains (PInt 1000) (PInt 50) (PInt 999) = false.
Proof. reflexivity. Qed.

Example contains_boundary_inclusive :
  Ring.contains (PInt 5) (PInt 10) (PInt 10) = true.
Proof. reflexivity. Qed.

Example contains_origin_exclusive :
  Ring.contains (PInt 5) (PInt 10) (PInt 5) = false.
Proof. reflexivity. Qed.

Example contains_wraps_past_modulus :
  Ring.contains (PInt 1000) (PInt 10) (PInt 1005) = true.
Proof. reflexivity. Qed.

(** ** List indexing *)

Lemma py_index_nat {A} (l : list A) (i : nat) :
  (i < length l)%nat -> py_index l (Z.of_nat i) = Some i.
Proof.
  intros Hi. unfold py_index.
  assert (H0 : (0 <=? Z.of_nat i) = true) by (apply Z.leb_le; lia).
  assert (H1 : (Z.of_nat i <? Z.of_nat (length l)) = true) by (apply Z.ltb_lt; lia).
  rewrite H0, H1. simpl. now rewrite Nat2Z.id.
Qed.

Lemma py_index_minus_one {A} (l : list A) :
  l <> [] -> py_index l (-1) = Some (Nat.pred (length l)).
Proof.
  intros Hl. unfold py_index.
  assert (Hlen : (0 < length l)%nat) by (destruct l; [congruence | simpl; lia]).
  replace (0 <=? -1) with false by reflexivity. simpl.
  assert (H0 : (- Z.of_nat (length l) <=? -1) = true) by (apply Z.leb_le; lia).
  rewrite H0. simpl. f_equal. lia.
Qed.

Lemma list_getitem_nat {A} (l : list A) (i : nat) (x : A) :
  l !! i = Some x -> list_getitem l (Z.of_nat i) = Ok x.
Proof.
  intros Hx. unfold list_getitem.
  rewrite py_index_nat by (eapply lookup_lt_Some; eauto).
  now rewrite Hx.
Qed.

Lemma list_getitem_last {A} (l : list A) (x : A) :
  last l = Some x -> list_getitem l (-1) = Ok x.
Proof.
  intros Hx. unfold list_getitem.
  rewrite py_index_minus_one by (intros ->; discriminate).
  rewrite last_lookup in Hx. now rewrite Hx.
Qed.

Lemma list_setitem_nat {A} (l : list A) (i : nat) (x : A) :
  (i < length l)%nat -> list_setitem l (Z.of_nat i) x = Ok (<[i := x]> l).
Proof.
  intros Hi. unfold list_setitem. now rewrite py_index_nat.
Qed.

Lemma range_nat (k n : nat) :
  range (Z.of_nat k) n = map Z.of_nat (seq k n).
Proof.
  unfold range. revert k. induction n as [|n IH]; intros k; [reflexivity|].
  change (seq 0 (S n)) with (0%nat :: seq 1 n). change (seq k (S n)) with (k :: seq (S k) n).
  simpl map. f_equal; [lia|].
  rewrite <- IH. rewrite <- !seq_shift, !map_map.
  apply map_ext. intros i. lia.
Qed.

(** ** FingerTable.find *)

Section FindScan.

Variable contains : pyval -> pyval -> pyval -> bool.

Let address_at (ft : FingerTable.t) (i : Z) : result pyval :=
  let? e := list_getitem (FingerTable.finger_table ft) i in Ok (snd e).

Lemma find_from_hit ft identification (n : nat) : forall (k i : nat) e,
  (k <= i < k + n)%nat ->
  FingerTable.finger_table ft !! i = Some e ->
  hit contains ft identification e = true ->
  (forall j e', (k <= j < i)%nat -> FingerTable.finger_table ft !! j = Some e' ->
                hit contains ft identification e' = false) ->
  FingerTable.find_from contains ft identification (map Z.of_nat (seq k n))
  = address_at ft (Z.of_nat i - 1).
Proof.
  induction n as [|n IH]; intros k i e Hi He Hhit Hbefore; [lia|].
  simpl. destruct (Nat.eq_dec k i) as [->|Hne].
  - rewrite (list_getitem_nat _ _ _ He). simpl.
    unfold hit in Hhit. rewrite Hhit. reflexivity.
  - assert (Hk : (k < length (FingerTable.finger_table ft))%nat).
    { apply lookup_lt_Some in He. lia. }
    destruct (lookup_lt_is_Some_2 _ _ Hk) as [ek Hek].
    rewrite (list_getitem_nat _ _ _ Hek). simpl.
    assert (Hmiss : hit contains ft identification ek = false)
      by (apply (Hbefore k); [lia | exact Hek]).
    unfold hit in Hmiss. rewrite Hmiss.
    apply (IH (S k) i e); [lia | assumption | assumption |].
    intros j e' Hj. apply Hbefore. lia.
Qed.

Lemma find_from_miss ft identification (n : nat) : forall (k : nat),
  (k + n <= length (FingerTable.finger_table ft))%nat ->
  (forall j e', (k <= j < k + n)%nat -> FingerTable.finger_table ft !! j = Some e' ->
                hit contains ft identification e' = false) ->
  FingerTable.find_from contains ft identification (map Z.of_nat (seq k n))
  = address_at ft (-1).
Proof.
  induction n as [|n IH]; intros k Hlen Hmiss; [reflexivity|].
  simpl.
  assert (Hk : (k < length (FingerTable.finger_table ft))%nat) by lia.
  destruct (lookup_lt_is_Some_2 _ _ Hk) as [ek Hek].
  rewrite (list_getitem_nat _ _ _ Hek). simpl.
  assert (Hm : hit contains ft identification ek = false)
    by (apply (Hmiss k); [lia | exact Hek]).
  unfold hit in Hm. rewrite Hm.
  apply IH; [lia|]. intros j e' Hj. apply Hmiss. lia.
Qed.

(** C4 (as amended).  [find] scans the entries in order.  When entry
    [i] (counted from 1) is the first whose id passes
    [contains(self.node_id, entry.id, identification)], the answer is
    the address of entry [i - 1] for [i >= 2], and the address of the
    last entry for [i = 1], where Python's index [-1] wraps around.
    When no entry passes, the answer is the last entry's address. *)
Theorem find_scan (ft : FingerTable.t) (identification : pyval) :
  table_wf ft ->
  (forall i e, first_hit contains ft identification i e ->
     exists prev,
       (if (i =? 1)%nat then last (FingerTable.finger_table ft) else entry ft (i - 1))
         = Some prev /\
       FingerTable.find contains ft identification = Ok (snd prev)) /\
  (no_hit contains ft identification ->
   forall l, last (FingerTable.finger_table ft) = Some l ->
     FingerTable.find contains ft identification = Ok (snd l)).
Proof.
  intros Hwf. unfold table_wf in Hwf. split.
  - intros i e (He & Hhit & Hbefore).
    destruct i as [|i]; [discriminate|]. simpl in He.
    assert (Hfind : FingerTable.find contains ft identification
                    = address_at ft (Z.of_nat i - 1)).
    { unfold FingerTable.find. rewrite (range_nat 0).
      apply (find_from_hit ft identification _ 0%nat i e); try assumption.
      - apply lookup_lt_Some in He. lia.
      - intros j e' Hj He'. apply (Hbefore (S j)); [lia | exact He']. }
    rewrite Hfind. unfold address_at.
    destruct i as [|i].
    + destruct (last (FingerTable.finger_table ft)) as [prev|] eqn:Hlast.
      * exists prev. split; [reflexivity|].
        change (Z.of_nat 0 - 1) with (-1).
        now rewrite (list_getitem_last _ _ Hlast).
      * rewrite last_lookup in Hlast. apply lookup_ge_None in Hlast.
        apply lookup_lt_Some in He. lia.
    + assert (Hp : (i < length (FingerTable.finger_table ft))%nat)
        by (apply lookup_lt_Some in He; lia).
      destruct (lookup_lt_is_Some_2 _ _ Hp) as [prev Hprev].
      exists prev. split.
      * change ((S (S i) =? 1)%nat) with false. cbv iota.
        replace (S (S i) - 1)%nat with (S i) by lia. exact Hprev.
      * replace (Z.of_nat (S i) - 1) with (Z.of_nat i) by lia.
        now rewrite (list_getitem_nat _ _ _ Hprev).
  - intros Hno l Hlast.
    unfold FingerTable.find. rewrite (range_nat 0).
    rewrite (find_from_miss ft identification _ 0%nat).
    + unfold address_at. now rewrite (list_getitem_last _ _ Hlast).
    + lia.
    + intros j e' _ He'. apply (Hno (S j)). exact He'.
Qed.

End FindScan.

(** [find_scan] at a concrete table: identifier 6 is first covered by
    entry 2 (node 7), so the answer is entry 1's address; identifier 100
    is covered by no entry, so the answer is the last entry's. *)
Lemma find_scan_witness :
  table_wf Sample.three_fingers /\
  (exists prev,
     entry Sample.three_fingers 1 = Some prev /\
     FingerTable.find Ring.contains Sample.three_fingers (PInt 6) = Ok (snd prev)) /\
  FingerTable.find Ring.contains Sample.three_fingers (PInt 100) = Ok (Sample.host 5009).
Proof.
  assert (Hwf : table_wf Sample.three_fingers) by reflexivity.
  split; [exact Hwf|].
  destruct (find_scan Ring.contains Sample.three_fingers (PInt 6) Hwf) as [Hhit _].
  destruct (find_scan Ring.contains Sample.three_fingers (PInt 100) Hwf) as [_ Hmiss].
  split.
  - apply (Hhit 2%nat (PInt 7, Sample.host 5007)).
    split; [reflexivity|]. split; [reflexivity|].
    intros j e' Hj He'.
    destruct j as [|[|j]]; [discriminate | | lia].
    injection He' as <-. reflexivity.
  - refine (Hmiss _ (PInt 9, Sample.host 5009) eq_refl).
    intros j e' He'.
    destruct j as [|[|[|[|j]]]]; try discriminate;
      injection He' as <-; reflexivity.
Defined.

(** C4 as stated fails where the first entry itself passes the test:
    identifier 3 is covered by entry 1 (node 5); there is no entry 0
    whose address could be returned, and [find] answers with the
    address of the last entry, entry 3. *)
Lemma find_first_entry_hit_returns_last :
  first_hit Ring.contains Sample.three_fingers (PInt 3) 1 (PInt 5, Sample.host 5005) /\
  entry Sample.three_fingers (1 - 1) = None /\
  entry Sample.three_fingers 3 = Some (PInt 9, Sample.host 5009) /\
  FingerTable.find Ring.contains Sample.three_fingers (PInt 3) = Ok (Sample.host 5009).
Proof.
  repeat split. intros j e' Hj He'.
  destruct j as [|j]; [discriminate | lia].
Qed.

(** ** FingerTable.fill and FingerTable.update *)

Lemma range_S (lo : Z) (n : nat) : range lo (S n) = lo :: range (lo + 1) n.
Proof.
  unfold range. change (seq 0 (S n)) with (0%nat :: seq 1 n).
  simpl map. f_equal; [lia|].
  rewrite <- seq_shift, map_map. apply map_ext. intros i. lia.
Qed.

Lemma with_finger_table_same (ft : FingerTable.t) :
  FingerTable.with_finger_table (FingerTable.finger_table ft) ft = ft.
Proof. now destruct ft. Qed.

Lemma fill_loop (x : pyval * pyval) (n : nat) : forall (k : nat) (ft : FingerTable.t),
  length (FingerTable.finger_table ft) = (k + n)%nat ->
  for_each (range (Z.of_nat k + 1) n) (fun i => FingerTable.setitem (i - 1) x) ft
  = (Ok tt,
     FingerTable.with_finger_table
       (take k (FingerTable.finger_table ft) ++ replicate n x) ft).
Proof.
  induction n as [|n IH]; intros k ft Hlen.
  - simpl. unfold ret. rewrite app_nil_r, firstn_all2 by lia.
    now rewrite with_finger_table_same.
  - rewrite range_S. simpl for_each. unfold bind at 1.
    unfold FingerTable.setitem, bind, gets, lift, modify.
    replace (Z.of_nat k + 1 - 1) with (Z.of_nat k) by lia.
    rewrite list_setitem_nat by lia.
    replace (Z.of_nat k + 1 + 1) with (Z.of_nat (S k) + 1) by lia.
    rewrite IH by (simpl; rewrite length_insert; lia).
    f_equal. unfold FingerTable.with_finger_table. simpl. f_equal.
    assert (Hk : (k < length (FingerTable.finger_table ft))%nat) by lia.
    rewrite (take_S_r _ _ x) by (now apply list_lookup_insert_eq).
    rewrite take_insert_ge by lia.
    now rewrite <- app_assoc.
Qed.

(** On a well-formed table [fill] returns, with every entry set. *)
Lemma fill_spec (node_id node_addr : pyval) (ft : FingerTable.t) :
  table_wf ft ->
  FingerTable.fill node_id node_addr ft
  = (Ok tt,
     FingerTable.with_finger_table
       (replicate (FingerTable.m_bits ft) (node_id, node_addr)) ft).
Proof.
  intros Hwf. unfold FingerTable.fill, bind, gets.
  change 1 with (Z.of_nat 0 + 1).
  rewrite (fill_loop _ _ 0%nat) by exact Hwf.
  reflexivity.
Qed.

Lemma update_int_spec (i : nat) (node_id node_addr : pyval) (ft : FingerTable.t) :
  (i < length (FingerTable.finger_table ft))%nat ->
  FingerTable.update (PInt (Z.of_nat (S i))) node_id node_addr ft
  = (Ok tt,
     FingerTable.with_finger_table
       (<[i := (node_id, node_addr)]> (FingerTable.finger_table ft)) ft).
Proof.
  intros Hi. unfold FingerTable.update, FingerTable.setitem, bind, gets, lift, modify.
  simpl py_sub1. cbv iota beta.
  replace (Z.of_nat (S i) - 1) with (Z.of_nat i) by lia.
  now rewrite list_setitem_nat.
Qed.

(** An index that is not an integer makes [update] raise before it
    touches the table. *)
Lemma update_none_raises (node_id node_addr : pyval) (ft : FingerTable.t) :
  FingerTable.update PNone node_id node_addr ft = (Raise TypeError, ft).
Proof. reflexivity. Qed.

(** ** Equality with an integer *)

Lemma py_eqb_int (z : Z) (v : pyval) : py_eqb (PInt z) v = true <-> v = PInt z.
Proof.
  destruct v; simpl; split; try discriminate.
  - intros H. apply Z.eqb_eq in H. now subst.
  - intros H. injection H as ->. apply Z.eqb_refl.
Qed.

Lemma py_eqb_int_false (z : Z) (v : pyval) : py_eqb (PInt z) v = false <-> v <> PInt z.
Proof.
  rewrite <- py_eqb_int. destruct (py_eqb (PInt z) v); split; congruence.
Qed.

(** ** DHTNode.__init__ *)

(** C9.  A node constructed with no bootstrap address is inside the
    DHT at once, its successor is itself (its own identifier and its
    own address) and its predecessor is unknown. *)
Theorem singleton_is_active (dht_hash : pyval -> Z) (py_str : pyval -> string)
    (address : pyval) :
  let node := DHTNode.__init__ dht_hash py_str address PNone in
  DHTNode.inside_dht node = true /\
  DHTNode.addr node = address /\
  DHTNode.identification node = dht_hash (PStr (py_str address)) /\
  DHTNode.successor_id node = PInt (DHTNode.identification node) /\
  DHTNode.successor_addr node = address /\
  DHTNode.predecessor_id node = PNone /\
  DHTNode.predecessor_addr node = PNone.
Proof. intros node. subst node. simpl. repeat split. Qed.

(** The sample node [Sample.singleton id address] is the constructed
    node of an address that hashes to [id]. *)
Lemma singleton_is_init (dht_hash : pyval -> Z) (py_str : pyval -> string)
    (address : pyval) :
  DHTNode.__init__ dht_hash py_str address PNone
  = Sample.singleton (dht_hash (PStr (py_str address))) address.
Proof. reflexivity. Qed.

(** The table a new node starts with is well formed. *)
Lemma init_wf (dht_hash : pyval -> Z) (py_str : pyval -> string)
    (address dht_address : pyval) :
  node_wf (DHTNode.__init__ dht_hash py_str address dht_address).
Proof.
  unfold node_wf, table_wf, DHTNode.__init__.
  destruct (DHTNode.is_none dht_address); reflexivity.
Qed.

(** ** DHTNode.node_join *)

Ltac se_step :=
  cbv beta iota zeta delta
    [bind lift gets modify ret raise zoom rbind
     DHTNode.self_ DHTNode.send DHTNode.on_finger_table].

Section NodeJoin.

Variable contains : pyval -> pyval -> pyval -> bool.

(** What [node_join] computes on a well-formed table. *)
Lemma node_join_run (self : DHTNode.t) (args requester_id requester_addr : pyval) :
  node_wf self ->
  getitem args "addr" = Ok requester_addr ->
  getitem args "id" = Ok requester_id ->
  DHTNode.node_join contains args self
  = (Ok tt,
     if py_eqb (PInt (DHTNode.identification self)) (DHTNode.successor_id self) then
       sent requester_addr
         (DHTNode.envelope "JOIN_REP"
            (PDict [("successor_id", PInt (DHTNode.identification self));
                    ("successor_addr", DHTNode.addr self)]))
         (adopt_successor requester_id requester_addr self)
     else if contains (PInt (DHTNode.identification self)) (DHTNode.successor_id self)
               requester_id then
       sent requester_addr
         (DHTNode.envelope "JOIN_REP"
            (PDict [("successor_id", DHTNode.successor_id self);
                    ("successor_addr", DHTNode.successor_addr self)]))
         (adopt_successor requester_id requester_addr self)
     else
       sent (DHTNode.successor_addr self) (DHTNode.envelope "JOIN_REQ" args) self).
Proof.
  intros Hwf Haddr Hid.
  unfold DHTNode.node_join. se_step. rewrite Haddr, Hid. se_step.
  destruct (py_eqb (PInt (DHTNode.identification self)) (DHTNode.successor_id self)).
  - simpl. rewrite fill_spec by exact Hwf. reflexivity.
  - destruct (contains _ _ requester_id).
    + simpl. rewrite fill_spec by exact Hwf. reflexivity.
    + reflexivity.
Qed.

(** C6.  JOIN_REQ for [(requester_id, requester_addr)] has three
    outcomes.  A node that is its own successor adopts the requester,
    fills its table with it and answers JOIN_REP naming itself.
    Otherwise, when the requester's id is between the node and its
    successor, it answers JOIN_REP with the old successor and adopts
    the requester likewise.  Otherwise it sends the JOIN_REQ on,
    unchanged, to its successor and keeps its state. *)
Theorem node_join_three_ways (self : DHTNode.t) (args requester_id requester_addr : pyval) :
  node_wf self ->
  getitem args "addr" = Ok requester_addr ->
  getitem args "id" = Ok requester_id ->
  (DHTNode.successor_id self = PInt (DHTNode.identification self) ->
   DHTNode.node_join contains args self
   = (Ok tt,
      sent requester_addr
        (DHTNode.envelope "JOIN_REP"
           (PDict [("successor_id", PInt (DHTNode.identification self));
                   ("successor_addr", DHTNode.addr self)]))
        (adopt_successor requester_id requester_addr self))) /\
  (DHTNode.successor_id self <> PInt (DHTNode.identification self) ->
   contains (PInt (DHTNode.identification self)) (DHTNode.successor_id self)
     requester_id = true ->
   DHTNode.node_join contains args self
   = (Ok tt,
      sent requester_addr
        (DHTNode.envelope "JOIN_REP"
           (PDict [("successor_id", DHTNode.successor_id self);
                   ("successor_addr", DHTNode.successor_addr self)]))
        (adopt_successor requester_id requester_addr self))) /\
  (DHTNode.successor_id self <> PInt (DHTNode.identification self) ->
   contains (PInt (DHTNode.identification self)) (DHTNode.successor_id self)
     requester_id = false ->
   DHTNode.node_join contains args self
   = (Ok tt, sent (DHTNode.successor_addr self) (DHTNode.envelope "JOIN_REQ" args) self)).
Proof.
  intros Hwf Haddr Hid.
  rewrite (node_join_run self args requester_id requester_addr Hwf Haddr Hid).
  repeat split.
  - intros Hself. apply py_eqb_int in Hself. now rewrite Hself.
  - intros Hother Hin. apply py_eqb_int_false in Hother. now rewrite Hother, Hin.
  - intros Hother Hout. apply py_eqb_int_false in Hother. now rewrite Hother, Hout.
Qed.

End NodeJoin.

(** [node_join_three_ways] at node 110: alone, it admits node 108;
    with 108 as successor it splices in node 100, which lies between
    110 and 108 on the ring, and passes on the request of node 109,
    which does not. *)
Lemma node_join_three_ways_witness :
  DHTNode.node_join Ring.contains (Sample.join_args 108) Sample.n110
  = (Ok tt,
     sent (Sample.host 5108)
       (DHTNode.envelope "JOIN_REP"
          (PDict [("successor_id", PInt 110); ("successor_addr", Sample.host 5110)]))
       (adopt_successor (PInt 108) (Sample.host 5108) Sample.n110)) /\
  DHTNode.node_join Ring.contains (Sample.join_args 100) Sample.n110_108
  = (Ok tt,
     sent (Sample.host 5100)
       (DHTNode.envelope "JOIN_REP"
          (PDict [("successor_id", PInt 108); ("successor_addr", Sample.host 5108)]))
       (adopt_successor (PInt 100) (Sample.host 5100) Sample.n110_108)) /\
  DHTNode.node_join Ring.contains (Sample.join_args 109) Sample.n110_108
  = (Ok tt,
     sent (Sample.host 5108)
       (DHTNode.envelope "JOIN_REQ" (Sample.join_args 109)) Sample.n110_108).
Proof.
  assert (Hwf : node_wf Sample.n110) by reflexivity.
  assert (Hwf' : node_wf Sample.n110_108) by reflexivity.
  split; [|split].
  - destruct (node_join_three_ways Ring.contains Sample.n110 (Sample.join_args 108)
                (PInt 108) (Sample.host 5108) Hwf eq_refl eq_refl) as (Hown & _ & _).
    apply Hown. reflexivity.
  - destruct (node_join_three_ways Ring.contains Sample.n110_108 (Sample.join_args 100)
                (PInt 100) (Sample.host 5100) Hwf' eq_refl eq_refl) as (_ & Hsplice & _).
    apply Hsplice; [vm_compute; discriminate | reflexivity].
  - destruct (node_join_three_ways Ring.contains Sample.n110_108 (Sample.join_args 109)
                (PInt 109) (Sample.host 5109) Hwf' eq_refl eq_refl) as (_ & _ & Hpass).
    apply Hpass; [vm_compute; discriminate | reflexivity].
Defined.

(** ** The key/value store *)

Lemma py_eqb_refl : forall v : pyval, py_eqb v v = true.
Proof.
  fix IH 1. intros [ | z | s | items | entries ]; simpl.
  - reflexivity.
  - apply Z.eqb_refl.
  - apply String.eqb_refl.
  - induction items as [|x items IHitems]; [reflexivity|].
    rewrite (IH x). exact IHitems.
  - induction entries as [|[k x] entries IHentries]; [reflexivity|].
    rewrite String.eqb_refl, (IH x). exact IHentries.
Qed.

Lemma store_lookup_assign (key value : pyval) (d : store) :
  store_lookup key (store_assign key value d) = Some value.
Proof.
  induction d as [|[k v] d IH]; simpl.
  - now rewrite py_eqb_refl.
  - destruct (py_eqb key k) eqn:Hk; simpl; rewrite Hk; [reflexivity | exact IH].
Qed.

Lemma store_assign_fresh (key value : pyval) (d : store) :
  store_lookup key d = None -> store_assign key value d = (d ++ [(key, value)])%list.
Proof.
  induction d as [|[k v] d IH]; simpl; [reflexivity|].
  destruct (py_eqb key k); [discriminate|].
  intros H. now rewrite IH.
Qed.

(** ** DHTNode.put and DHTNode.get *)

Section PutGet.

Variable dht_hash : pyval -> Z.
Variable contains : pyval -> pyval -> pyval -> bool.

(** C5 (as amended).  When the key's identifier is not between the node
    and its successor and is between the predecessor and the node, a
    PUT of a hashable key that the store lacks stores the value under
    the key and sends ACK to the requester; a PUT of a key the store
    has sends NACK to the requester and changes nothing else. *)
Theorem put_owned (self : DHTNode.t) (key value address : pyval) :
  toward_successor dht_hash contains self key = false ->
  behind_predecessor dht_hash contains self key = true ->
  hashable key = true ->
  (store_lookup key (DHTNode.keystore self) = None ->
   DHTNode.put dht_hash contains key value address self
   = (Ok tt,
      sent address (DHTNode.bare "ACK")
        (DHTNode.with_keystore (DHTNode.keystore self ++ [(key, value)])%list self)) /\
   store_lookup key (DHTNode.keystore self ++ [(key, value)])%list = Some value) /\
  (forall stored, store_lookup key (DHTNode.keystore self) = Some stored ->
   DHTNode.put dht_hash contains key value address self
   = (Ok tt, sent address (DHTNode.bare "NACK") self) /\
   DHTNode.keystore (sent address (DHTNode.bare "NACK") self) = DHTNode.keystore self).
Proof.
  unfold toward_successor, behind_predecessor. intros Hsucc Hpred Hkey.
  unfold DHTNode.put. se_step. rewrite Hsucc, Hpred.
  unfold store_contains, store_setitem. rewrite Hkey. split.
  - intros Hfresh. rewrite Hfresh. simpl.
    rewrite store_assign_fresh by exact Hfresh. split; [reflexivity|].
    rewrite <- (store_assign_fresh key value) by exact Hfresh.
    apply store_lookup_assign.
  - intros stored Hstored. rewrite Hstored. simpl. split; reflexivity.
Qed.

End PutGet.

(** [put_owned] at node 110 in the ring of two: the key [n] hashes to
    110, which only node 110 covers; the first PUT is stored and
    acknowledged, a second one is refused and leaves the store as it
    was. *)
Lemma put_owned_witness :
  DHTNode.put Ring.dht_hash Ring.contains (PStr "n") (PStr "first") Sample.client
    Sample.n110_ring2
  = (Ok tt,
     sent Sample.client (DHTNode.bare "ACK")
       (DHTNode.with_keystore [(PStr "n", PStr "first")] Sample.n110_ring2)) /\
  DHTNode.put Ring.dht_hash Ring.contains (PStr "n") (PStr "second") Sample.client
    (DHTNode.with_keystore [(PStr "n", PStr "first")] Sample.n110_ring2)
  = (Ok tt,
     sent Sample.client (DHTNode.bare "NACK")
       (DHTNode.with_keystore [(PStr "n", PStr "first")] Sample.n110_ring2)).
Proof.
  split.
  - apply (put_owned Ring.dht_hash Ring.contains Sample.n110_ring2
             (PStr "n") (PStr "first") Sample.client eq_refl eq_refl eq_refl).
    reflexivity.
  - apply (put_owned Ring.dht_hash Ring.contains
             (DHTNode.with_keystore [(PStr "n", PStr "first")] Sample.n110_ring2)
             (PStr "n") (PStr "second") Sample.client eq_refl eq_refl eq_refl)
      with (stored := PStr "first").
    reflexivity.
Defined.

(** Whatever the hash function, every key has a node that is behind
    its predecessor for the key, lacks the key, and yet passes a PUT of
    it on to its successor. *)
Lemma put_forwarded_around_any_key (dht_hash : pyval -> Z) (key value address : pyval) :
  0 <= dht_hash key < 1024 ->
  behind_predecessor dht_hash Ring.contains (Sample.around (dht_hash key)) key = true /\
  DHTNode.put dht_hash Ring.contains key value address (Sample.around (dht_hash key))
  = (Ok tt,
     sent (Sample.host 5001) (DHTNode.put_msg key value address)
       (Sample.around (dht_hash key))).
Proof.
  intros Hrange.
  assert (Hsucc : toward_successor dht_hash Ring.contains (Sample.around (dht_hash key)) key
                  = true).
  { unfold toward_successor, Sample.around. simpl.
    assert (Hcase : dht_hash key < 1021 \/ dht_hash key = 1021 \/ dht_hash key = 1022
                    \/ dht_hash key = 1023) by lia.
    destruct Hcase as [Hlow | [-> | [-> | ->]]]; try reflexivity.
    rewrite !Z.mod_small by lia.
    destruct (Z.ltb_spec (dht_hash key + 1) (dht_hash key + 3)); [|lia].
    apply orb_true_iff. right. apply Z.leb_le. lia. }
  split.
  - unfold behind_predecessor, Sample.around. simpl.
    assert (Hcase : dht_hash key = 0 \/ dht_hash key = 1 \/ 2 <= dht_hash key < 1021
                    \/ dht_hash key = 1021 \/ dht_hash key = 1022 \/ dht_hash key = 1023)
      by lia.
    destruct Hcase as [-> | [-> | [Hmid | [-> | [-> | ->]]]]]; try reflexivity.
    rewrite !Z.mod_small by lia.
    destruct (Z.ltb_spec (dht_hash key + 3) (dht_hash key - 2)); [lia|].
    apply andb_true_iff. split; [apply Z.ltb_lt | apply Z.leb_le]; lia.
  - unfold toward_successor in Hsucc. unfold DHTNode.put. se_step. rewrite Hsucc.
    reflexivity.
Qed.

(** C5 as stated fails on a node whose two intervals overlap.  Node
    110 has predecessor 105 and successor 108 (a state two messages
    away from a fresh node); the key [k] hashes to 107, between 105 and
    110, and the store lacks it.  But 107 is also between 110 and 108
    going round the ring, the test [put] makes first: the PUT goes to
    the successor, nothing is stored and no ACK is sent. *)
Lemma put_between_predecessor_forwarded :
  DHTNode.predecessor_id Sample.n110_between = PInt 105 /\
  DHTNode.successor_id Sample.n110_between = PInt 108 /\
  Ring.dht_hash (PStr "k") = 107 /\
  behind_predecessor Ring.dht_hash Ring.contains Sample.n110_between (PStr "k") = true /\
  store_lookup (PStr "k") (DHTNode.keystore Sample.n110_between) = None /\
  DHTNode.put Ring.dht_hash Ring.contains (PStr "k") (PStr "v") Sample.client
    Sample.n110_between
  = (Ok tt,
     sent (Sample.host 5108)
       (DHTNode.put_msg (PStr "k") (PStr "v") Sample.client) Sample.n110_between).
Proof. repeat split. Qed.

Section GetLikePut.

Variable dht_hash : pyval -> Z.
Variable contains : pyval -> pyval -> pyval -> bool.

(** C7.  GET takes the routing decision PUT takes.  Both send the
    request to the successor when the key's identifier is between the
    node and its successor.  Otherwise both handle it locally, replying
    to the requester, when it is between the predecessor and the node:
    GET with ACK and the stored value or with NACK, PUT with ACK after
    storing or with NACK (and both raise [TypeError] on a key that
    cannot be a dictionary key).  Otherwise both send it to the hop
    that [find] gives for the key's identifier, or raise what [find]
    raises. *)
Theorem get_routes_like_put (self : DHTNode.t) (key value address : pyval) :
  (toward_successor dht_hash contains self key = true ->
   DHTNode.put dht_hash contains key value address self
   = (Ok tt, sent (DHTNode.successor_addr self) (DHTNode.put_msg key value address) self) /\
   DHTNode.get dht_hash contains key address self
   = (Ok tt, sent (DHTNode.successor_addr self) (DHTNode.get_msg key address) self)) /\
  (toward_successor dht_hash contains self key = false ->
   behind_predecessor dht_hash contains self key = true ->
   (hashable key = true ->
    DHTNode.put dht_hash contains key value address self
    = (Ok tt,
       match store_lookup key (DHTNode.keystore self) with
       | None => sent address (DHTNode.bare "ACK")
                   (DHTNode.with_keystore
                      (store_assign key value (DHTNode.keystore self)) self)
       | Some _ => sent address (DHTNode.bare "NACK") self
       end) /\
    DHTNode.get dht_hash contains key address self
    = (Ok tt,
       match store_lookup key (DHTNode.keystore self) with
       | Some stored => sent address (DHTNode.envelope "ACK" stored) self
       | None => sent address (DHTNode.bare "NACK") self
       end)) /\
   (hashable key = false ->
    DHTNode.put dht_hash contains key value address self = (Raise TypeError, self) /\
    DHTNode.get dht_hash contains key address self = (Raise TypeError, self))) /\
  (toward_successor dht_hash contains self key = false ->
   behind_predecessor dht_hash contains self key = false ->
   (forall hop,
      FingerTable.find contains (DHTNode.finger_table self) (PInt (dht_hash key)) = Ok hop ->
      DHTNode.put dht_hash contains key value address self
      = (Ok tt, sent hop (DHTNode.put_msg key value address) self) /\
      DHTNode.get dht_hash contains key address self
      = (Ok tt, sent hop (DHTNode.get_msg key address) self)) /\
   (forall e,
      FingerTable.find contains (DHTNode.finger_table self) (PInt (dht_hash key)) = Raise e ->
      DHTNode.put dht_hash contains key value address self = (Raise e, self) /\
      DHTNode.get dht_hash contains key address self = (Raise e, self))).
Proof.
  unfold toward_successor, behind_predecessor, DHTNode.put, DHTNode.get.
  se_step. split; [|split].
  - intros ->. split; reflexivity.
  - intros -> ->. unfold store_contains, store_setitem, store_getitem. split.
    + intros ->. destruct (store_lookup key (DHTNode.keystore self)); split; reflexivity.
    + intros ->. split; reflexivity.
  - intros -> ->. split.
    + intros hop ->. split; reflexivity.
    + intros e ->. split; reflexivity.
Qed.

End GetLikePut.

(** [get_routes_like_put] at node 110 in the ring of two, holding the
    key [n]: a request for [k] (107) goes to the successor, one for
    [n] (110) is answered locally. *)
Lemma get_routes_like_put_witness :
  DHTNode.get Ring.dht_hash Ring.contains (PStr "k") Sample.client
    (DHTNode.with_keystore [(PStr "n", PStr "first")] Sample.n110_ring2)
  = (Ok tt,
     sent (Sample.host 5108) (DHTNode.get_msg (PStr "k") Sample.client)
       (DHTNode.with_keystore [(PStr "n", PStr "first")] Sample.n110_ring2)) /\
  DHTNode.get Ring.dht_hash Ring.contains (PStr "n") Sample.client
    (DHTNode.with_keystore [(PStr "n", PStr "first")] Sample.n110_ring2)
  = (Ok tt,
     sent Sample.client (DHTNode.envelope "ACK" (PStr "first"))
       (DHTNode.with_keystore [(PStr "n", PStr "first")] Sample.n110_ring2)).
Proof.
  split.
  - destruct (get_routes_like_put Ring.dht_hash Ring.contains
                (DHTNode.with_keystore [(PStr "n", PStr "first")] Sample.n110_ring2)
                (PStr "k") PNone Sample.client) as (Hsucc & _ & _).
    apply Hsucc. reflexivity.
  - destruct (get_routes_like_put Ring.dht_hash Ring.contains
                (DHTNode.with_keystore [(PStr "n", PStr "first")] Sample.n110_ring2)
                (PStr "n") PNone Sample.client) as (_ & Hlocal & _).
    destruct (Hlocal eq_refl eq_refl) as (Hhashable & _).
    apply Hhashable. reflexivity.
Defined.

(** ** The SUCCESSOR_REP branch *)

Section SuccessorRep.

Variable dht_hash : pyval -> Z.
Variable contains : pyval -> pyval -> pyval -> bool.

Lemma getIdxFromId_from_none (ft : FingerTable.t) (id : pyval) (idxs : list Z) :
  (forall i, In i idxs ->
     contains (PInt (FingerTable.node_id ft)) (PInt (FingerTable.target ft i)) id = false) ->
  FingerTable.getIdxFromId_from contains ft id idxs = PNone.
Proof.
  induction idxs as [|i idxs IH]; intros Hnone; [reflexivity|].
  simpl. rewrite (Hnone i) by (left; reflexivity).
  apply IH. intros j Hj. apply Hnone. right. exact Hj.
Qed.

(** No index [i] in [1..m] has [(node_id + 2^(i-1)) mod 2^m] cover [id]:
    [getIdxFromId] falls off its loop and returns [None]. *)
Lemma getIdxFromId_none (ft : FingerTable.t) (id : pyval) :
  (forall i : nat, (1 <= i <= FingerTable.m_bits ft)%nat ->
     contains (PInt (FingerTable.node_id ft))
       (PInt ((FingerTable.node_id ft + 2 ^ (Z.of_nat i - 1))
              mod 2 ^ Z.of_nat (FingerTable.m_bits ft))) id = false) ->
  FingerTable.getIdxFromId contains ft id = PNone.
Proof.
  intros Hnone. unfold FingerTable.getIdxFromId.
  apply getIdxFromId_from_none. intros i Hi.
  unfold range in Hi. apply in_map_iff in Hi. destruct Hi as (k & <- & Hk).
  apply in_seq in Hk. unfold FingerTable.target.
  specialize (Hnone (S k)). 
  replace (Z.of_nat (S k) - 1) with (0 + Z.of_nat k) in Hnone by lia.
  apply Hnone. lia.
Qed.

(** With no covering index the branch raises [TypeError] ([None - 1])
    before it touches the node. *)
Lemma successor_rep_uncovered (self : DHTNode.t) (output args req_id succ_id succ_addr : pyval) :
  getitem output "args" = Ok args ->
  getitem args "req_id" = Ok req_id ->
  getitem args "successor_id" = Ok succ_id ->
  getitem args "successor_addr" = Ok succ_addr ->
  FingerTable.getIdxFromId contains (DHTNode.finger_table self) req_id = PNone ->
  DHTNode.successor_rep contains output self = (Raise TypeError, self).
Proof.
  intros Hargs Hreq Hid Haddr Hnone.
  unfold DHTNode.successor_rep, DHTNode.arg. se_step.
  rewrite Hargs, Hreq, Hid, Haddr. se_step. rewrite Hnone.
  rewrite update_none_raises. now destruct self.
Qed.

End SuccessorRep.

(** C1, at a concrete input.  Node 110 (successor 108) receives a
    SUCCESSOR_REP for identifier 700.  Its ten targets are 111 ... 622,
    none of the intervals from 110 to a target holds 700, so
    [getIdxFromId] returns [None]; [update] then computes [None - 1].
    The [TypeError] is not caught: it leaves the serving loop, and the
    NOTIFY that arrived next is never handled.  The node's state, the
    finger table included, is as it was. *)
Theorem uncovered_successor_rep_raises :
  FingerTable.getIdxFromId Ring.contains (DHTNode.finger_table Sample.n110_108) (PInt 700)
  = PNone /\
  DHTNode.run_iteration Ring.dht_hash Ring.contains
    (Sample.from_node 108 (Sample.successor_rep_msg 700 300)) Sample.n110_108
  = (Raise TypeError, Sample.n110_108) /\
  DHTNode.serve_loop Ring.dht_hash Ring.contains
    [Sample.from_node 108 (Sample.successor_rep_msg 700 300);
     Sample.from_node 108 (DHTNode.envelope "NOTIFY" (Sample.notify_args 108))]
    Sample.n110_108
  = (Raise TypeError, Sample.n110_108).
Proof. repeat split. Qed.

(** ** The serving loop on envelopes it does not understand *)

Lemma py_eqb_str (v : pyval) (name : string) : py_eqb v (PStr name) = true -> v = PStr name.
Proof.
  destruct v; simpl; try discriminate.
  intros H. apply String.eqb_eq in H. now subst.
Qed.

Section Envelopes.

Variable dht_hash : pyval -> Z.
Variable contains : pyval -> pyval -> pyval -> bool.

Lemma serve_loop_cons (a : arrival) (rest : list arrival) (self : DHTNode.t) :
  DHTNode.done self = false ->
  DHTNode.serve_loop dht_hash contains (a :: rest) self
  = match DHTNode.run_iteration dht_hash contains a self with
    | (Ok _, self') => DHTNode.serve_loop dht_hash contains rest self'
    | (Raise e, self') => (Raise e, self')
    end.
Proof.
  intros Hdone. simpl. se_step. rewrite Hdone.
  destruct (DHTNode.run_iteration dht_hash contains a self) as [[[]|e] self']; reflexivity.
Qed.

(** C8.  The serving loop catches nothing.  A payload that unpickles
    to an envelope whose method is none of the handled verbs is dropped:
    the turn of the loop completes, the node is unchanged, nothing is
    sent, and the loop goes on with the next arrival as if the envelope
    had not come.  Every other malformed payload ends the loop, with
    the node as it was and the arrivals behind it never handled: bytes
    that [pickle.loads] rejects, with the exception it raises; content
    that has no method to read; and an envelope of a handled verb that
    reads its args (all but PREDECESSOR) and has none. *)
Theorem serve_loop_unknown_or_malformed (self : DHTNode.t) (source : pyval)
    (rest : list arrival) :
  DHTNode.done self = false ->
  (forall output method,
     getitem output "method" = Ok method -> unhandled method = true ->
     DHTNode.run_iteration dht_hash contains (Datagram (Pickled output) source) self
     = (Ok tt, self) /\
     DHTNode.serve_loop dht_hash contains (Datagram (Pickled output) source :: rest) self
     = DHTNode.serve_loop dht_hash contains rest self) /\
  (forall e,
     DHTNode.run_iteration dht_hash contains (Datagram (Rejected e) source) self
     = (Raise e, self) /\
     DHTNode.serve_loop dht_hash contains (Datagram (Rejected e) source :: rest) self
     = (Raise e, self)) /\
  (forall output e,
     getitem output "method" = Raise e ->
     DHTNode.run_iteration dht_hash contains (Datagram (Pickled output) source) self
     = (Raise e, self) /\
     DHTNode.serve_loop dht_hash contains (Datagram (Pickled output) source :: rest) self
     = (Raise e, self)) /\
  (forall output method e,
     getitem output "method" = Ok method -> reads_args method = true ->
     getitem output "args" = Raise e ->
     DHTNode.run_iteration dht_hash contains (Datagram (Pickled output) source) self
     = (Raise e, self) /\
     DHTNode.serve_loop dht_hash contains (Datagram (Pickled output) source :: rest) self
     = (Raise e, self)).
Proof.
  intros Hdone. split; [|split; [|split]].
  - intros output method Hmethod Hun.
    assert (Hrun : DHTNode.run_iteration dht_hash contains
                     (Datagram (Pickled output) source) self = (Ok tt, self)).
    { unfold unhandled, handled_methods in Hun. simpl in Hun.
      repeat (apply andb_prop in Hun; destruct Hun as [?H Hun]).
      repeat match goal with
             | H : negb _ = true |- _ => apply negb_true_iff in H
             end.
      unfold DHTNode.run_iteration, DHTNode.method_is. simpl. se_step.
      rewrite Hmethod. se_step.
      repeat match goal with
             | H : py_eqb method _ = false |- _ => rewrite H; clear H
             end.
      reflexivity. }
    split; [exact Hrun|]. rewrite serve_loop_cons, Hrun by exact Hdone. reflexivity.
  - intros e.
    assert (Hrun : DHTNode.run_iteration dht_hash contains
                     (Datagram (Rejected e) source) self = (Raise e, self))
      by reflexivity.
    split; [exact Hrun|]. rewrite serve_loop_cons, Hrun by exact Hdone. reflexivity.
  - intros output e Hmethod.
    assert (Hrun : DHTNode.run_iteration dht_hash contains
                     (Datagram (Pickled output) source) self = (Raise e, self)).
    { unfold DHTNode.run_iteration, DHTNode.method_is. simpl. se_step.
      rewrite Hmethod. reflexivity. }
    split; [exact Hrun|]. rewrite serve_loop_cons, Hrun by exact Hdone. reflexivity.
  - intros output method e Hmethod Hreads Hargs.
    assert (Hrun : DHTNode.run_iteration dht_hash contains
                     (Datagram (Pickled output) source) self = (Raise e, self)).
    { unfold reads_args in Hreads. simpl in Hreads.
      unfold DHTNode.run_iteration, DHTNode.method_is, DHTNode.successor_rep, DHTNode.arg.
      simpl. se_step. rewrite Hmethod, Hargs. se_step.
      destruct (py_eqb method (PStr "JOIN_REQ")); [reflexivity|].
      destruct (py_eqb method (PStr "NOTIFY")); [reflexivity|].
      destruct (py_eqb method (PStr "PUT")); [reflexivity|].
      destruct (py_eqb method (PStr "GET")); [reflexivity|].
      destruct (py_eqb method (PStr "PREDECESSOR")) eqn:Hpred.
      { apply py_eqb_str in Hpred. subst method. discriminate. }
      destruct (py_eqb method (PStr "SUCCESSOR")); [reflexivity|].
      destruct (py_eqb method (PStr "STABILIZE")); [reflexivity|].
      destruct (py_eqb method (PStr "SUCCESSOR_REP")); [reflexivity|].
      discriminate. }
    split; [exact Hrun|]. rewrite serve_loop_cons, Hrun by exact Hdone. reflexivity.
Qed.

End Envelopes.

(** [serve_loop_unknown_or_malformed] at node 110 in the ring of two:
    an envelope with the method HELLO is dropped and the PUT behind it
    is served; the garbage datagram raises. *)
Lemma serve_loop_unknown_or_malformed_witness :
  DHTNode.serve_loop Ring.dht_hash Ring.contains
    [Datagram (Pickled (DHTNode.bare "HELLO")) Sample.client;
     Sample.client_put "n" "first"] Sample.n110_ring2
  = DHTNode.serve_loop Ring.dht_hash Ring.contains
      [Sample.client_put "n" "first"] Sample.n110_ring2 /\
  DHTNode.serve_loop Ring.dht_hash Ring.contains
    [Sample.garbage; Sample.client_put "n" "first"] Sample.n110_ring2
  = (Raise UnpicklingError, Sample.n110_ring2).
Proof.
  destruct (serve_loop_unknown_or_malformed Ring.dht_hash Ring.contains
              Sample.n110_ring2 Sample.client [Sample.client_put "n" "first"] eq_refl)
    as (Hdrop & Hraw & _).
  split.
  - apply (Hdrop (DHTNode.bare "HELLO") (PStr "HELLO")); reflexivity.
  - apply Hraw.
Defined.

(** C8 fails on the code.  Node 110 would serve the client's PUT (it
    stores the value and sends ACK).  With bytes that are no pickle
    ahead of it the loop ends in [UnpicklingError], with a pickle that
    stops short in [EOFError], and the PUT is not served.  An envelope
    without a method, and a PUT without args, end it in [KeyError];
    content that is not a dictionary, in [TypeError]. *)
Lemma garbage_ends_serve_loop :
  DHTNode.serve_loop Ring.dht_hash Ring.contains
    [Sample.client_put "n" "first"] Sample.n110_ring2
  = (Ok tt,
     sent Sample.client (DHTNode.bare "ACK")
       (DHTNode.with_keystore [(PStr "n", PStr "first")] Sample.n110_ring2)) /\
  DHTNode.serve_loop Ring.dht_hash Ring.contains
    [Sample.garbage; Sample.client_put "n" "first"] Sample.n110_ring2
  = (Raise UnpicklingError, Sample.n110_ring2) /\
  DHTNode.serve_loop Ring.dht_hash Ring.contains
    [Sample.truncated; Sample.client_put "n" "first"] Sample.n110_ring2
  = (Raise EOFError, Sample.n110_ring2) /\
  DHTNode.serve_loop Ring.dht_hash Ring.contains
    [Datagram (Pickled (PDict [("args", PNone)])) Sample.client;
     Sample.client_put "n" "first"] Sample.n110_ring2
  = (Raise KeyError, Sample.n110_ring2) /\
  DHTNode.serve_loop Ring.dht_hash Ring.contains
    [Datagram (Pickled (DHTNode.bare "PUT")) Sample.client;
     Sample.client_put "n" "first"] Sample.n110_ring2
  = (Raise KeyError, Sample.n110_ring2) /\
  DHTNode.serve_loop Ring.dht_hash Ring.contains
    [Datagram (Pickled (PInt 7)) Sample.client;
     Sample.client_put "n" "first"] Sample.n110_ring2
  = (Raise TypeError, Sample.n110_ring2).
Proof. repeat split. Qed.

(** ** What a computation leaves alone *)

Section Preserves.

Context {S : Type} (R : S -> S -> Prop) `{!PreOrder R}.

Lemma preserves_ret {A} (a : A) : preserves R (ret a).
Proof. intros s. reflexivity. Qed.

Lemma preserves_raise {A} (e : exn) : preserves R (@raise S A e).
Proof. intros s. reflexivity. Qed.

Lemma preserves_lift {A} (r : result A) : preserves R (lift r).
Proof. intros s. reflexivity. Qed.

Lemma preserves_gets {A} (f : S -> A) : preserves R (gets f).
Proof. intros s. reflexivity. Qed.

Lemma preserves_modify (f : S -> S) : (forall s, R s (f s)) -> preserves R (modify f).
Proof. intros Hf s. apply Hf. Qed.

Lemma preserves_bind {A B} (c : SE S A) (k : A -> SE S B) :
  preserves R c -> (forall a, preserves R (k a)) -> preserves R (bind c k).
Proof.
  intros Hc Hk s. unfold bind. specialize (Hc s).
  destruct (c s) as [[a|e] s']; simpl in *.
  - etransitivity; [exact Hc | apply Hk].
  - exact Hc.
Qed.

Lemma preserves_for_each {A} (xs : list A) (body : A -> SE S unit) :
  (forall x, preserves R (body x)) -> preserves R (for_each xs body).
Proof.
  intros Hbody. induction xs as [|x xs IH]; simpl.
  - apply preserves_ret.
  - apply preserves_bind; [apply Hbody | intros _; exact IH].
Qed.

Lemma preserves_zoom {T A} (proj : S -> T) (upd : T -> S -> S) (c : SE T A) :
  (forall t s, R s (upd t s)) -> preserves R (zoom proj upd c).
Proof.
  intros Hupd s. unfold zoom. destruct (c (proj s)) as [r t]. apply Hupd.
Qed.

Lemma preserves_zoom_read {T A} (proj : S -> T) (upd : T -> S -> S) (f : T -> result A) :
  (forall s, R s (upd (proj s) s)) -> preserves R (zoom proj upd (fun t => (f t, t))).
Proof. intros Hupd s. unfold zoom. apply Hupd. Qed.

Lemma preserves_zoom_rel {T A} (RT : T -> T -> Prop) (proj : S -> T) (upd : T -> S -> S)
    (c : SE T A) :
  preserves RT c -> (forall s t, RT (proj s) t -> R s (upd t s)) ->
  preserves R (zoom proj upd c).
Proof.
  intros Hc Hupd s. unfold zoom. specialize (Hc (proj s)).
  destruct (c (proj s)) as [r t]. apply Hupd. exact Hc.
Qed.

End Preserves.

#[local] Instance same_keystore_preorder : PreOrder same_keystore.
Proof.
  split.
  - intros s. reflexivity.
  - intros a b c Hab Hbc. unfold same_keystore in *. congruence.
Qed.

#[local] Instance same_links_preorder : PreOrder same_links.
Proof.
  split.
  - intros s. repeat split.
  - intros a b c (? & ? & ?) (? & ? & ?). unfold same_links. repeat split; congruence.
Qed.

(** Follow the structure of a computation: binds, branches, loops, and
    the primitives, leaving the side conditions on [modify] and [zoom]. *)
Ltac preserves_step :=
  lazymatch goal with
  | |- preserves ?R (ret _) => apply (preserves_ret R)
  | |- preserves ?R (raise _) => apply (preserves_raise R)
  | |- preserves ?R (lift _) => apply (preserves_lift R)
  | |- preserves ?R (gets _) => apply (preserves_gets R)
  | |- preserves ?R (bind _ _) => apply (preserves_bind R); [ | intros ? ]
  | |- preserves ?R (for_each _ _) => apply (preserves_for_each R); intros ?
  | |- preserves ?R (zoom _ _ (fun t => (_, t))) => apply (preserves_zoom_read R)
  | |- preserves ?R (zoom _ _ _) => apply (preserves_zoom R)
  | |- preserves ?R (modify _) => apply (preserves_modify R)
  | |- preserves _ (if ?b then _ else _) => destruct b
  | |- preserves _ (match ?x with _ => _ end) => destruct x
  | |- preserves _ DHTNode.self_ => unfold DHTNode.self_
  | |- preserves _ (DHTNode.send _ _) => unfold DHTNode.send
  | |- preserves _ (DHTNode.on_finger_table _) => unfold DHTNode.on_finger_table
  | |- preserves _ (DHTNode.method_is _ _) => unfold DHTNode.method_is
  | |- preserves _ (DHTNode.arg _ _) => unfold DHTNode.arg
  end.

Ltac preserves_walk := repeat preserves_step.

(** ** The store is written by an owned, fresh PUT and by nothing else *)

Section KeystoreFrame.

Variable dht_hash : pyval -> Z.
Variable contains : pyval -> pyval -> pyval -> bool.

Ltac keeps_keystore := preserves_walk; intros; reflexivity.

Lemma node_join_keeps_keystore args :
  preserves same_keystore (DHTNode.node_join contains args).
Proof. unfold DHTNode.node_join. keeps_keystore. Qed.

Lemma get_successor_keeps_keystore args :
  preserves same_keystore (DHTNode.get_successor contains args).
Proof. unfold DHTNode.get_successor. keeps_keystore. Qed.

Lemma notify_keeps_keystore args :
  preserves same_keystore (DHTNode.notify contains args).
Proof. unfold DHTNode.notify. keeps_keystore. Qed.

Lemma stabilize_keeps_keystore from_id addr' :
  preserves same_keystore (DHTNode.stabilize contains from_id addr').
Proof.
  unfold DHTNode.stabilize, DHTNode.refresh_finger_table. preserves_walk;
    try apply get_successor_keeps_keystore; intros; reflexivity.
Qed.

Lemma get_keeps_keystore key address :
  preserves same_keystore (DHTNode.get dht_hash contains key address).
Proof. unfold DHTNode.get. keeps_keystore. Qed.

Lemma predecessor_keeps_keystore addr' :
  preserves same_keystore (DHTNode.predecessor addr').
Proof. unfold DHTNode.predecessor. keeps_keystore. Qed.

Lemma successor_rep_keeps_keystore output :
  preserves same_keystore (DHTNode.successor_rep contains output).
Proof. unfold DHTNode.successor_rep. keeps_keystore. Qed.

Lemma join_iteration_keeps_keystore a :
  preserves same_keystore (DHTNode.join_iteration a).
Proof.
  unfold DHTNode.join_iteration, DHTNode.join_rep.
  destruct (DHTNode.recv a) as [[payload|] addr']; keeps_keystore.
Qed.

(** [put] writes the store in one place only. *)
Lemma put_frame key value address (self : DHTNode.t) :
  same_keystore self (snd (DHTNode.put dht_hash contains key value address self)) \/
  (toward_successor dht_hash contains self key = false /\
   behind_predecessor dht_hash contains self key = true /\
   store_contains key (DHTNode.keystore self) = Ok false /\
   DHTNode.keystore (snd (DHTNode.put dht_hash contains key value address self))
   = (DHTNode.keystore self ++ [(key, value)])%list).
Proof.
  unfold DHTNode.put, toward_successor, behind_predecessor. se_step.
  destruct (contains (PInt (DHTNode.identification self)) (DHTNode.successor_id self)
              (PInt (dht_hash key))); [left; reflexivity|].
  destruct (contains (DHTNode.predecessor_id self) (PInt (DHTNode.identification self))
              (PInt (dht_hash key))).
  - unfold store_contains, store_setitem.
    destruct (hashable key); [|left; reflexivity].
    destruct (store_lookup key (DHTNode.keystore self)) eqn:Hlookup; [left; reflexivity|].
    right. simpl. rewrite store_assign_fresh by exact Hlookup. repeat split.
  - left.
    destruct (FingerTable.find contains (DHTNode.finger_table self) (PInt (dht_hash key)));
      reflexivity.
Qed.

(** C10.  A turn of the joining loop never writes the store.  A turn
    of the serving loop, on any arrival and whether it returns or
    raises, leaves the store as it was, unless the arrival is a PUT
    that the node handles itself for a key the store lacks; then the
    store gains that one entry. *)
Theorem keystore_frame (self : DHTNode.t) (a : arrival) :
  DHTNode.keystore (snd (DHTNode.join_iteration a self)) = DHTNode.keystore self /\
  (DHTNode.keystore (snd (DHTNode.run_iteration dht_hash contains a self))
   = DHTNode.keystore self \/
   exists key value,
     owned_fresh_put dht_hash contains self a key value /\
     DHTNode.keystore (snd (DHTNode.run_iteration dht_hash contains a self))
     = (DHTNode.keystore self ++ [(key, value)])%list).
Proof.
  split; [apply join_iteration_keeps_keystore|].
  unfold DHTNode.run_iteration.
  destruct a as [|p source]; simpl; [left; reflexivity|].
  destruct (payload_is_empty p) eqn:Hempty; [left; reflexivity|].
  destruct p as [output|e|]; [|left; reflexivity|discriminate].
  unfold DHTNode.method_is, DHTNode.arg, pickle_loads. se_step.
  destruct (getitem output "method") as [method|e] eqn:Hmethod; cbv beta iota;
    [|left; reflexivity].
  destruct (py_eqb method (PStr "JOIN_REQ")); cbv beta iota.
  { left. destruct (getitem output "args"); [apply node_join_keeps_keystore | reflexivity]. }
  destruct (py_eqb method (PStr "NOTIFY")); cbv beta iota.
  { left. destruct (getitem output "args"); [apply notify_keeps_keystore | reflexivity]. }
  destruct (py_eqb method (PStr "PUT")) eqn:Hput; cbv beta iota.
  { apply py_eqb_str in Hput. subst method.
    destruct (getitem output "args") as [args|e] eqn:Hargs; cbv beta iota;
      [|left; reflexivity].
    destruct (getitem args "key") as [key|e] eqn:Hkey; cbv beta iota;
      [|left; reflexivity].
    destruct (getitem args "value") as [value|e] eqn:Hvalue; cbv beta iota;
      [|left; reflexivity].
    destruct (dict_get args "from" source) as [from|e]; cbv beta iota;
      [|left; reflexivity].
    destruct (put_frame key value from self) as [Hsame | (Hsucc & Hpred & Hfresh & Hstore)].
    - left. exact Hsame.
    - right. exists key, value. split; [|exact Hstore].
      exists output, args, source. repeat split; assumption. }
  destruct (py_eqb method (PStr "GET")); cbv beta iota.
  { left. destruct (getitem output "args") as [args|e]; cbv beta iota; [|reflexivity].
    destruct (getitem args "key"); cbv beta iota; [|reflexivity].
    destruct (dict_get args "from" source); [apply get_keeps_keystore | reflexivity]. }
  destruct (py_eqb method (PStr "PREDECESSOR")); cbv beta iota.
  { left. apply predecessor_keeps_keystore. }
  destruct (py_eqb method (PStr "SUCCESSOR")); cbv beta iota.
  { left. destruct (getitem output "args"); [apply get_successor_keeps_keystore | reflexivity]. }
  destruct (py_eqb method (PStr "STABILIZE")); cbv beta iota.
  { left. destruct (getitem output "args"); [apply stabilize_keeps_keystore | reflexivity]. }
  destruct (py_eqb method (PStr "SUCCESSOR_REP")); cbv beta iota.
  { left. apply successor_rep_keeps_keystore. }
  left. reflexivity.
Qed.

End KeystoreFrame.

(** ** DHTNode.stabilize *)

Lemma refresh_from_spec (ft : FingerTable.t) (n : nat) : forall k : nat,
  (k + n <= length (FingerTable.finger_table ft))%nat ->
  exists entries,
    FingerTable.refresh_from ft (map Z.of_nat (seq k n)) = Ok entries /\
    length entries = n /\
    forall j, (j < n)%nat ->
      exists a, entries !! j
                = Some (Z.of_nat (k + j) + 1, FingerTable.target ft (Z.of_nat (k + j)), a).
Proof.
  induction n as [|n IH]; intros k Hlen.
  - exists []. repeat split. intros j Hj. lia.
  - simpl.
    assert (Hk : (k < length (FingerTable.finger_table ft))%nat) by lia.
    destruct (lookup_lt_is_Some_2 _ _ Hk) as [e He].
    rewrite (list_getitem_nat _ _ _ He). simpl.
    destruct (IH (S k)) as (entries & Hentries & Hlength & Hnth); [lia|].
    rewrite Hentries. simpl.
    exists ((Z.of_nat k + 1, FingerTable.target ft (Z.of_nat k), snd e) :: entries).
    split; [reflexivity|]. split; [simpl; lia|].
    intros [|j] Hj.
    + exists (snd e). simpl. now rewrite Nat.add_0_r.
    + destruct (Hnth j) as [a Ha]; [lia|]. exists a. simpl.
      rewrite Ha. now replace (S k + j)%nat with (k + S j)%nat by lia.
Qed.

Lemma refresh_spec (ft : FingerTable.t) :
  table_wf ft ->
  exists entries,
    FingerTable.refresh ft = Ok entries /\
    length entries = FingerTable.m_bits ft /\
    forall j, (j < FingerTable.m_bits ft)%nat ->
      exists a, entries !! j
                = Some (Z.of_nat j + 1, FingerTable.target ft (Z.of_nat j), a).
Proof.
  intros Hwf. unfold FingerTable.refresh. rewrite (range_nat 0).
  destruct (refresh_from_spec ft (FingerTable.m_bits ft) 0%nat) as (entries & H1 & H2 & H3).
  - unfold table_wf in Hwf. lia.
  - exists entries. repeat split; assumption.
Qed.

Section StabilizeSpec.

Variable contains : pyval -> pyval -> pyval -> bool.

Lemma with_socket_socket (self : DHTNode.t) :
  DHTNode.with_socket (DHTNode.socket self) self = self.
Proof. now destruct self. Qed.

Lemma on_finger_table_read {A} (f : FingerTable.t -> result A) (self : DHTNode.t) :
  DHTNode.on_finger_table (fun ft => (f ft, ft)) self = (f (DHTNode.finger_table self), self).
Proof. unfold DHTNode.on_finger_table, zoom. now destruct self. Qed.

(** The node's own SUCCESSOR handler on a lookup it issues itself. *)
Lemma get_successor_own_lookup (self : DHTNode.t) (target : Z) :
  DHTNode.get_successor contains
    (PDict [("id", PInt target); ("from", DHTNode.addr self)]) self
  = (Ok tt,
     DHTNode.with_socket (DHTNode.socket self ++ [lookup_datagram contains self target]) self).
Proof.
  unfold DHTNode.get_successor, lookup_datagram. simpl getitem. se_step.
  destruct (contains _ _ _); reflexivity.
Qed.

Lemma refresh_loop (self : DHTNode.t) entries (n : nat) : forall (k : nat) out,
  FingerTable.refresh (DHTNode.finger_table self) = Ok entries ->
  (forall j, (j < k + n)%nat ->
     exists a, entries !! j
               = Some (Z.of_nat j + 1,
                       FingerTable.target (DHTNode.finger_table self) (Z.of_nat j), a)) ->
  for_each (map Z.of_nat (seq k n))
    (fun i =>
       entries <- DHTNode.on_finger_table (fun ft => (FingerTable.refresh ft, ft)) ;;
       entry <- lift (list_getitem entries i) ;;
       self <- DHTNode.self_ ;;
       DHTNode.get_successor contains
         (PDict [("id", PInt (snd (fst entry))); ("from", DHTNode.addr self)]))%py
    (DHTNode.with_socket out self)
  = (Ok tt,
     DHTNode.with_socket
       (out ++ map (fun j => lookup_datagram contains self
                               (FingerTable.target (DHTNode.finger_table self) (Z.of_nat j)))
                   (seq k n))
       self).
Proof.
  induction n as [|n IH]; intros k out Hrefresh Hentries.
  - simpl. unfold ret. now rewrite app_nil_r.
  - simpl for_each. unfold bind at 1.
    destruct (Hentries k) as [a Ha]; [lia|].
    assert (Hbody :
      (entries <- DHTNode.on_finger_table (fun ft => (FingerTable.refresh ft, ft)) ;;
       entry <- lift (list_getitem entries (Z.of_nat k)) ;;
       self <- DHTNode.self_ ;;
       DHTNode.get_successor contains
         (PDict [("id", PInt (snd (fst entry))); ("from", DHTNode.addr self)]))%py
        (DHTNode.with_socket out self)
      = (Ok tt,
         DHTNode.with_socket
           (out ++ [lookup_datagram contains self
                      (FingerTable.target (DHTNode.finger_table self) (Z.of_nat k))])
           self)).
    { se_step. simpl DHTNode.finger_table. rewrite Hrefresh.
      rewrite (list_getitem_nat _ _ _ Ha). cbv beta iota. simpl fst. simpl snd.
      rewrite get_successor_own_lookup. now destruct self. }
    rewrite Hbody.
    rewrite (IH (S k)); [| exact Hrefresh | intros j Hj; apply Hentries; lia].
    simpl map. now rewrite <- app_assoc.
Qed.

(** On a well-formed table the refresh block returns, having sent one
    lookup per target, in table order. *)
Lemma refresh_finger_table_spec (self : DHTNode.t) :
  node_wf self ->
  DHTNode.refresh_finger_table contains self
  = (Ok tt,
     DHTNode.with_socket
       (DHTNode.socket self
        ++ map (lookup_datagram contains self) (refresh_targets (DHTNode.finger_table self)))
       self).
Proof.
  intros Hwf. destruct (refresh_spec _ Hwf) as (entries & Hrefresh & Hlength & Hentries).
  unfold DHTNode.refresh_finger_table. unfold bind at 1.
  rewrite on_finger_table_read, Hrefresh. cbv beta iota zeta.
  rewrite Hlength, (range_nat 0).
  pose proof (refresh_loop self entries (FingerTable.m_bits (DHTNode.finger_table self))
                0%nat (DHTNode.socket self) Hrefresh) as Hloop.
  rewrite with_socket_socket in Hloop.
  rewrite Hloop by (intros j Hj; apply Hentries; lia).
  unfold refresh_targets. rewrite (range_nat 0), !map_map. reflexivity.
Qed.

End StabilizeSpec.

Section StabilizeClaim.

Variable contains : pyval -> pyval -> pyval -> bool.

Lemma tighten_wf (id addr : pyval) (self : DHTNode.t) :
  node_wf self -> node_wf (tighten id addr self).
Proof.
  unfold node_wf, table_wf, tighten. simpl. now rewrite length_insert.
Qed.

(** What [stabilize] computes on a well-formed, non-empty table. *)
Lemma stabilize_run (self : DHTNode.t) (from_id addr' : pyval) :
  node_wf self ->
  (0 < FingerTable.m_bits (DHTNode.finger_table self))%nat ->
  let self1 := if tightens contains self from_id then tighten from_id addr' self else self in
  DHTNode.stabilize contains from_id addr' self
  = (Ok tt,
     DHTNode.with_socket
       (DHTNode.socket self
        ++ (DHTNode.successor_addr self1, notify_msg self1)
           :: map (lookup_datagram contains self1)
                  (refresh_targets (DHTNode.finger_table self)))
       self1).
Proof.
  intros Hwf Hm self1.
  assert (Hlen : (0 < length (FingerTable.finger_table (DHTNode.finger_table self)))%nat)
    by (unfold node_wf, table_wf in Hwf; lia).
  unfold DHTNode.stabilize. se_step. fold (tightens contains self from_id).
  subst self1. destruct (tightens contains self from_id).
  - simpl DHTNode.successor_id. simpl DHTNode.successor_addr. simpl DHTNode.finger_table.
    change (PInt 1) with (PInt (Z.of_nat 1)).
    rewrite update_int_spec by exact Hlen. cbv beta iota.
    match goal with
    | |- DHTNode.refresh_finger_table _ ?s = _ =>
        replace s with (sent (DHTNode.successor_addr (tighten from_id addr' self))
                          (notify_msg (tighten from_id addr' self))
                          (tighten from_id addr' self))
          by (destruct self; reflexivity)
    end.
    rewrite refresh_finger_table_spec by (apply tighten_wf; exact Hwf).
    destruct self. unfold sent, tighten. simpl. rewrite <- app_assoc. reflexivity.
  - match goal with
    | |- DHTNode.refresh_finger_table _ ?s = _ =>
        change s with (sent (DHTNode.successor_addr self) (notify_msg self) self)
    end.
    rewrite refresh_finger_table_spec by exact Hwf.
    destruct self. unfold sent. simpl. rewrite <- app_assoc. reflexivity.
Qed.

(** C3 (as amended).  STABILIZE with the reported predecessor id
    [from_id], received from the address [addr'].  When [from_id] is
    not [None] and is between the node and its successor, the node's
    successor becomes [from_id] at the address [addr'], the address the
    STABILIZE came from, and entry 1 of the finger table is set to that
    pair.  In every case the node then sends NOTIFY, announcing itself
    as predecessor, to the successor it now has, and after it one
    lookup per refresh target, in table order, each the output of its
    own SUCCESSOR handler with itself as the asker. *)
Theorem stabilize_tightens_notifies_refreshes (self : DHTNode.t) (from_id addr' : pyval) :
  node_wf self ->
  (0 < FingerTable.m_bits (DHTNode.finger_table self))%nat ->
  let self1 := if tightens contains self from_id then tighten from_id addr' self else self in
  (from_id <> PNone ->
   contains (PInt (DHTNode.identification self)) (DHTNode.successor_id self) from_id = true ->
   DHTNode.successor_id self1 = from_id /\
   DHTNode.successor_addr self1 = addr' /\
   entry (DHTNode.finger_table self1) 1 = Some (from_id, addr')) /\
  DHTNode.stabilize contains from_id addr' self
  = (Ok tt,
     DHTNode.with_socket
       (DHTNode.socket self
        ++ (DHTNode.successor_addr self1, notify_msg self1)
           :: map (lookup_datagram contains self1)
                  (refresh_targets (DHTNode.finger_table self)))
       self1).
Proof.
  intros Hwf Hm self1. split; [|exact (stabilize_run self from_id addr' Hwf Hm)].
  assert (Hlen : (0 < length (FingerTable.finger_table (DHTNode.finger_table self)))%nat)
    by (unfold node_wf, table_wf in Hwf; lia).
  intros Hsome Hbetween. subst self1. unfold tightens.
  rewrite Hbetween. destruct from_id; try congruence; simpl;
    (repeat split; apply list_lookup_insert_eq; exact Hlen).
Qed.

End StabilizeClaim.

(** [stabilize_tightens_notifies_refreshes] at node 100 with successor
    108, told by 108 that its predecessor is 105: node 100 takes 105 as
    successor id, sends NOTIFY and ten lookups. *)
Lemma stabilize_tightens_notifies_refreshes_witness :
  let self1 := tighten (PInt 105) (Sample.host 5108) Sample.n100_108 in
  DHTNode.stabilize Ring.contains (PInt 105) (Sample.host 5108) Sample.n100_108
  = (Ok tt,
     DHTNode.with_socket
       (DHTNode.socket Sample.n100_108
        ++ (Sample.host 5108, notify_msg self1)
           :: map (lookup_datagram Ring.contains self1)
                  [101; 102; 104; 108; 116; 132; 164; 228; 356; 612])
       self1).
Proof.
  intros self1.
  assert (Hwf : node_wf Sample.n100_108) by reflexivity.
  assert (Hm : (0 < FingerTable.m_bits (DHTNode.finger_table Sample.n100_108))%nat)
    by (vm_compute; lia).
  destruct (stabilize_tightens_notifies_refreshes Ring.contains Sample.n100_108
              (PInt 105) (Sample.host 5108) Hwf Hm) as [_ Hrun].
  exact Hrun.
Defined.

(** C3 as stated fails on the address.  Node 108 has predecessor 105
    at [host 5105]; asked by node 100, it answers STABILIZE carrying
    the id 105 and nothing else.  Node 100 (successor 108) takes 105 as
    successor id, and as successor address the address the answer came
    from, [host 5108], which is node 108's and not the reported
    predecessor's. *)
Lemma stabilize_takes_the_senders_address :
  DHTNode.predecessor_id Sample.n108_pred105 = PInt 105 /\
  DHTNode.predecessor_addr Sample.n108_pred105 = Sample.host 5105 /\
  DHTNode.socket
    (Sample.after [Sample.from_node 100 (DHTNode.bare "PREDECESSOR")] Sample.n108_pred105)
  = [(Sample.host 5100, DHTNode.envelope "STABILIZE" (PInt 105))] /\
  DHTNode.successor_id
    (Sample.after [Sample.from_node 108 (DHTNode.envelope "STABILIZE" (PInt 105))]
       Sample.n100_108)
  = PInt 105 /\
  DHTNode.successor_addr
    (Sample.after [Sample.from_node 108 (DHTNode.envelope "STABILIZE" (PInt 105))]
       Sample.n100_108)
  = Sample.host 5108 /\
  Sample.host 5108 <> Sample.host 5105.
Proof. repeat split. discriminate. Qed.

(** ** Entry 1 and the successor *)

Section Mirror.

Variable dht_hash : pyval -> Z.
Variable contains : pyval -> pyval -> pyval -> bool.













End Mirror.

Section MirrorPreserved.

Variable dht_hash : pyval -> Z.
Variable contains : pyval -> pyval -> pyval -> bool.




End MirrorPreserved.



(** ** The shape of the finger table never changes *)

#[local] Instance same_shape_preorder : PreOrder same_shape.
Proof.
  split.
  - intros t. split; reflexivity.
  - intros a b c [? ?] [? ?]. unfold same_shape. split; congruence.
Qed.

#[local] Instance same_table_shape_preorder : PreOrder same_table_shape.
Proof.
  split.
  - intros s. unfold same_table_shape. reflexivity.
  - intros a b c Hab Hbc. unfold same_table_shape in *. etransitivity; eassumption.
Qed.

Create HintDb shape discriminated.

Lemma setitem_keeps_shape (i : Z) (e : pyval * pyval) :
  preserves same_shape (FingerTable.setitem i e).
Proof.
  intros t. unfold FingerTable.setitem, list_setitem. se_step.
  destruct (py_index (FingerTable.finger_table t) i); simpl.
  - split; [apply length_insert | reflexivity].
  - reflexivity.
Qed.

Lemma fill_keeps_shape (node_id node_addr : pyval) :
  preserves same_shape (FingerTable.fill node_id node_addr).
Proof.
  unfold FingerTable.fill. preserves_walk. apply setitem_keeps_shape.
Qed.

Lemma update_keeps_shape (index node_id node_addr : pyval) :
  preserves same_shape (FingerTable.update index node_id node_addr).
Proof.
  unfold FingerTable.update. preserves_walk. apply setitem_keeps_shape.
Qed.

Lemma on_finger_table_keeps_shape {A} (c : SE FingerTable.t A) :
  preserves same_shape c -> preserves same_table_shape (DHTNode.on_finger_table c).
Proof.
  intros Hc. unfold DHTNode.on_finger_table.
  apply (preserves_zoom_rel same_table_shape same_shape); [exact Hc|].
  intros s t Ht. exact Ht.
Qed.

#[local] Hint Resolve fill_keeps_shape update_keeps_shape : shape.

Section Shape.

Variable dht_hash : pyval -> Z.
Variable contains : pyval -> pyval -> pyval -> bool.

(** Walk the computation; a method call on the table keeps the shape by
    the lemmas above, everything else leaves the table alone. *)
Ltac keeps_shape :=
  repeat first
    [ apply on_finger_table_keeps_shape
    | preserves_step ];
  try solve [auto with shape];
  try (intros; split; reflexivity).

Lemma node_join_keeps_shape args :
  preserves same_table_shape (DHTNode.node_join contains args).
Proof. unfold DHTNode.node_join. keeps_shape. Qed.

Lemma get_successor_keeps_shape args :
  preserves same_table_shape (DHTNode.get_successor contains args).
Proof. unfold DHTNode.get_successor. keeps_shape. Qed.

Lemma notify_keeps_shape args :
  preserves same_table_shape (DHTNode.notify contains args).
Proof. unfold DHTNode.notify. keeps_shape. Qed.

Lemma put_keeps_shape key value address :
  preserves same_table_shape (DHTNode.put dht_hash contains key value address).
Proof. unfold DHTNode.put. keeps_shape. Qed.

Lemma get_keeps_shape key address :
  preserves same_table_shape (DHTNode.get dht_hash contains key address).
Proof. unfold DHTNode.get. keeps_shape. Qed.

#[local] Hint Resolve node_join_keeps_shape get_successor_keeps_shape notify_keeps_shape
  put_keeps_shape get_keeps_shape : shape.

Lemma stabilize_keeps_shape from_id addr' :
  preserves same_table_shape (DHTNode.stabilize contains from_id addr').
Proof. unfold DHTNode.stabilize, DHTNode.refresh_finger_table. keeps_shape. Qed.

Lemma successor_rep_keeps_shape output :
  preserves same_table_shape (DHTNode.successor_rep contains output).
Proof. unfold DHTNode.successor_rep. keeps_shape. Qed.

Lemma predecessor_keeps_shape addr' :
  preserves same_table_shape (DHTNode.predecessor addr').
Proof. unfold DHTNode.predecessor. keeps_shape. Qed.

#[local] Hint Resolve stabilize_keeps_shape successor_rep_keeps_shape
  predecessor_keeps_shape : shape.

Lemma run_iteration_keeps_shape a :
  preserves same_table_shape (DHTNode.run_iteration dht_hash contains a).
Proof.
  unfold DHTNode.run_iteration. destruct (DHTNode.recv a) as [[payload|] addr']; keeps_shape.
Qed.

Lemma join_iteration_keeps_shape a :
  preserves same_table_shape (DHTNode.join_iteration a).
Proof.
  unfold DHTNode.join_iteration, DHTNode.join_rep.
  destruct (DHTNode.recv a) as [[payload|] addr']; keeps_shape.
Qed.

Lemma serve_loop_keeps_shape arrivals :
  preserves same_table_shape (DHTNode.serve_loop dht_hash contains arrivals).
Proof.
  induction arrivals as [|a rest IH]; simpl; preserves_walk;
    first [apply run_iteration_keeps_shape | exact IH].
Qed.

Lemma join_loop_keeps_shape arrivals :
  preserves same_table_shape (DHTNode.join_loop arrivals).
Proof.
  induction arrivals as [|a rest IH]; simpl; preserves_walk;
    first [apply join_iteration_keeps_shape | exact IH].
Qed.

Variable py_str : pyval -> string.

(** X1.  Every state [run] reaches from a constructed node, over any
    arrivals and whether it is still running or has raised, has a
    finger table of exactly [m_bits = 10] entries: the tables the
    properties above are stated for are the tables the code has. *)
Theorem run_keeps_ten_fingers (address dht_address : pyval) (arrivals : list arrival) :
  let node := snd (DHTNode.run dht_hash contains arrivals
                     (DHTNode.__init__ dht_hash py_str address dht_address)) in
  node_wf node /\ FingerTable.m_bits (DHTNode.finger_table node) = 10%nat.
Proof.
  intros node.
  assert (Hshape : same_table_shape
                     (DHTNode.__init__ dht_hash py_str address dht_address) node).
  { subst node. generalize (DHTNode.__init__ dht_hash py_str address dht_address).
    change (preserves same_table_shape (DHTNode.run dht_hash contains arrivals)).
    unfold DHTNode.run. preserves_walk;
      [apply join_loop_keeps_shape | apply serve_loop_keeps_shape]. }
  destruct Hshape as [Hlen Hm].
  assert (Hinit : length (FingerTable.finger_table
                            (DHTNode.finger_table
                               (DHTNode.__init__ dht_hash py_str address dht_address)))
                  = 10%nat
                  /\ FingerTable.m_bits
                       (DHTNode.finger_table
                          (DHTNode.__init__ dht_hash py_str address dht_address))
                     = 10%nat).
  { unfold DHTNode.__init__. destruct (DHTNode.is_none dht_address); split; reflexivity. }
  destruct Hinit as [Hlen0 Hm0].
  unfold node_wf, table_wf. rewrite Hlen, Hm, Hlen0, Hm0. split; reflexivity.
Qed.

End Shape.

(** ** The node's identity never changes *)

#[local] Instance same_owner_preorder : PreOrder same_owner.
Proof.
  split.
  - intros t. split; reflexivity.
  - intros a b c [? ?] [? ?]. unfold same_owner. split; congruence.
Qed.

#[local] Instance same_identity_preorder : PreOrder same_identity.
Proof.
  split.
  - intros s. unfold same_identity. repeat split. auto.
  - intros a b c (? & ? & ? & ? & ? & ? & ?) (? & ? & ? & ? & ? & ? & ?).
    unfold same_identity. repeat split; try congruence. auto.
Qed.

Create HintDb identity discriminated.

Lemma setitem_keeps_owner (i : Z) (e : pyval * pyval) :
  preserves same_owner (FingerTable.setitem i e).
Proof.
  intros t. unfold FingerTable.setitem, list_setitem. se_step.
  destruct (py_index (FingerTable.finger_table t) i); split; reflexivity.
Qed.

Lemma fill_keeps_owner (node_id node_addr : pyval) :
  preserves same_owner (FingerTable.fill node_id node_addr).
Proof.
  unfold FingerTable.fill. preserves_walk. apply setitem_keeps_owner.
Qed.

Lemma update_keeps_owner (index node_id node_addr : pyval) :
  preserves same_owner (FingerTable.update index node_id node_addr).
Proof.
  unfold FingerTable.update. preserves_walk. apply setitem_keeps_owner.
Qed.

Lemma on_finger_table_keeps_identity {A} (c : SE FingerTable.t A) :
  preserves same_owner c -> preserves same_identity (DHTNode.on_finger_table c).
Proof.
  intros Hc. unfold DHTNode.on_finger_table.
  apply (preserves_zoom_rel same_identity same_owner); [exact Hc|].
  intros s t [Hid Haddr]. unfold same_identity. simpl. repeat split; auto.
Qed.

#[local] Hint Resolve fill_keeps_owner update_keeps_owner : identity.

Section Identity.

Variable dht_hash : pyval -> Z.
Variable contains : pyval -> pyval -> pyval -> bool.

Ltac keeps_identity :=
  repeat first
    [ apply on_finger_table_keeps_identity
    | preserves_step ];
  try solve [auto with identity];
  try (intros; unfold same_identity, same_owner; simpl; repeat split; auto).

Lemma node_join_keeps_identity args :
  preserves same_identity (DHTNode.node_join contains args).
Proof. unfold DHTNode.node_join. keeps_identity. Qed.

Lemma get_successor_keeps_identity args :
  preserves same_identity (DHTNode.get_successor contains args).
Proof. unfold DHTNode.get_successor. keeps_identity. Qed.

Lemma notify_keeps_identity args :
  preserves same_identity (DHTNode.notify contains args).
Proof. unfold DHTNode.notify. keeps_identity. Qed.

Lemma put_keeps_identity key value address :
  preserves same_identity (DHTNode.put dht_hash contains key value address).
Proof. unfold DHTNode.put. keeps_identity. Qed.

Lemma get_keeps_identity key address :
  preserves same_identity (DHTNode.get dht_hash contains key address).
Proof. unfold DHTNode.get. keeps_identity. Qed.

#[local] Hint Resolve node_join_keeps_identity get_successor_keeps_identity
  notify_keeps_identity put_keeps_identity get_keeps_identity : identity.

Lemma stabilize_keeps_identity from_id addr' :
  preserves same_identity (DHTNode.stabilize contains from_id addr').
Proof. unfold DHTNode.stabilize, DHTNode.refresh_finger_table. keeps_identity. Qed.

Lemma successor_rep_keeps_identity output :
  preserves same_identity (DHTNode.successor_rep contains output).
Proof. unfold DHTNode.successor_rep. keeps_identity. Qed.

Lemma predecessor_keeps_identity addr' :
  preserves same_identity (DHTNode.predecessor addr').
Proof. unfold DHTNode.predecessor. keeps_identity. Qed.

#[local] Hint Resolve stabilize_keeps_identity successor_rep_keeps_identity
  predecessor_keeps_identity : identity.

Lemma run_iteration_keeps_identity a :
  preserves same_identity (DHTNode.run_iteration dht_hash contains a).
Proof.
  unfold DHTNode.run_iteration.
  destruct (DHTNode.recv a) as [[payload|] addr']; keeps_identity.
Qed.

Lemma join_iteration_keeps_identity a :
  preserves same_identity (DHTNode.join_iteration a).
Proof.
  unfold DHTNode.join_iteration, DHTNode.join_rep.
  destruct (DHTNode.recv a) as [[payload|] addr']; keeps_identity.
Qed.

Lemma serve_loop_keeps_identity arrivals :
  preserves same_identity (DHTNode.serve_loop dht_hash contains arrivals).
Proof.
  induction arrivals as [|a rest IH]; simpl; preserves_walk;
    first [apply run_iteration_keeps_identity | exact IH].
Qed.

Lemma join_loop_keeps_identity arrivals :
  preserves same_identity (DHTNode.join_loop arrivals).
Proof.
  induction arrivals as [|a rest IH]; simpl; preserves_walk;
    first [apply join_iteration_keeps_identity | exact IH].
Qed.

Variable py_str : pyval -> string.

(** X2.  Over any arrivals, and whether [run] is still going or has
    raised, the node keeps the identifier it derived from its address
    at construction, its address, its bootstrap address, and the owner
    id and address recorded in its finger table (which stay equal to
    the node's own); no handler sets [done]; and a node that was
    constructed without a bootstrap address stays inside the DHT. *)
Theorem run_keeps_identity (address dht_address : pyval) (arrivals : list arrival) :
  let node := snd (DHTNode.run dht_hash contains arrivals
                     (DHTNode.__init__ dht_hash py_str address dht_address)) in
  DHTNode.identification node = dht_hash (PStr (py_str address)) /\
  DHTNode.addr node = address /\
  DHTNode.dht_address node = dht_address /\
  DHTNode.done node = false /\
  FingerTable.node_id (DHTNode.finger_table node) = DHTNode.identification node /\
  FingerTable.node_addr (DHTNode.finger_table node) = DHTNode.addr node /\
  (dht_address = PNone -> DHTNode.inside_dht node = true).
Proof.
  intros node.
  assert (Hsame : same_identity
                    (DHTNode.__init__ dht_hash py_str address dht_address) node).
  { subst node. generalize (DHTNode.__init__ dht_hash py_str address dht_address).
    change (preserves same_identity (DHTNode.run dht_hash contains arrivals)).
    unfold DHTNode.run. preserves_walk;
      [apply join_loop_keeps_identity | apply serve_loop_keeps_identity]. }
  destruct Hsame as (Hid & Haddr & Hboot & Hdone & Hnid & Hnaddr & Hinside).
  rewrite Hnid, Hnaddr, Hid, Haddr, Hboot, Hdone.
  unfold DHTNode.__init__ in *.
  destruct (DHTNode.is_none dht_address) eqn:Hnone; simpl in *; repeat split; auto.
  intros ->. discriminate.
Qed.

End Identity.

(** ** Stored values persist *)

#[local] Instance keystore_grows_preorder : PreOrder keystore_grows.
Proof.
  split.
  - intros s key value H. exact H.
  - intros a b c Hab Hbc key value H. apply Hbc, Hab, H.
Qed.

Lemma store_lookup_assign_other (key value k v : pyval) (d : store) :
  store_lookup key d = None ->
  store_lookup k d = Some v ->
  store_lookup k (store_assign key value d) = Some v.
Proof.
  induction d as [|[k0 v0] d IH]; simpl; [discriminate|].
  destruct (py_eqb key k0); [discriminate|].
  intros Hfresh. simpl. destruct (py_eqb k k0); [trivial | now apply IH].
Qed.

Create HintDb persist discriminated.

Section Persist.

Variable dht_hash : pyval -> Z.
Variable contains : pyval -> pyval -> pyval -> bool.

Ltac keeps_values :=
  preserves_walk;
  try solve [auto with persist];
  try (intros; unfold keystore_grows; simpl; intros; assumption).

Lemma put_keeps_values key value address :
  preserves keystore_grows (DHTNode.put dht_hash contains key value address).
Proof.
  intros self. unfold DHTNode.put. se_step.
  destruct (contains (PInt (DHTNode.identification self)) (DHTNode.successor_id self)
              (PInt (dht_hash key))); [intros k v H; exact H|].
  destruct (contains (DHTNode.predecessor_id self) (PInt (DHTNode.identification self))
              (PInt (dht_hash key))).
  - unfold store_contains, store_setitem.
    destruct (hashable key); [|intros k v H; exact H].
    destruct (store_lookup key (DHTNode.keystore self)) eqn:Hfresh;
      [intros k v H; exact H|].
    intros k v H. simpl. now apply store_lookup_assign_other.
  - destruct (FingerTable.find contains (DHTNode.finger_table self) (PInt (dht_hash key)));
      intros k v H; exact H.
Qed.

Lemma node_join_keeps_values args :
  preserves keystore_grows (DHTNode.node_join contains args).
Proof. unfold DHTNode.node_join. keeps_values. Qed.

Lemma get_successor_keeps_values args :
  preserves keystore_grows (DHTNode.get_successor contains args).
Proof. unfold DHTNode.get_successor. keeps_values. Qed.

Lemma notify_keeps_values args :
  preserves keystore_grows (DHTNode.notify contains args).
Proof. unfold DHTNode.notify. keeps_values. Qed.

Lemma get_keeps_values key address :
  preserves keystore_grows (DHTNode.get dht_hash contains key address).
Proof. unfold DHTNode.get. keeps_values. Qed.

#[local] Hint Resolve put_keeps_values node_join_keeps_values get_successor_keeps_values
  notify_keeps_values get_keeps_values : persist.

Lemma stabilize_keeps_values from_id addr' :
  preserves keystore_grows (DHTNode.stabilize contains from_id addr').
Proof. unfold DHTNode.stabilize, DHTNode.refresh_finger_table. keeps_values. Qed.

Lemma successor_rep_keeps_values output :
  preserves keystore_grows (DHTNode.successor_rep contains output).
Proof. unfold DHTNode.successor_rep. keeps_values. Qed.

Lemma predecessor_keeps_values addr' :
  preserves keystore_grows (DHTNode.predecessor addr').
Proof. unfold DHTNode.predecessor. keeps_values. Qed.

#[local] Hint Resolve stabilize_keeps_values successor_rep_keeps_values
  predecessor_keeps_values : persist.

Lemma run_iteration_keeps_values a :
  preserves keystore_grows (DHTNode.run_iteration dht_hash contains a).
Proof.
  unfold DHTNode.run_iteration.
  destruct (DHTNode.recv a) as [[payload|] addr']; keeps_values.
Qed.

Lemma serve_loop_keeps_values arrivals :
  preserves keystore_grows (DHTNode.serve_loop dht_hash contains arrivals).
Proof.
  induction arrivals as [|a rest IH]; simpl; preserves_walk;
    first [apply run_iteration_keeps_values | exact IH].
Qed.

(** X3.  What the store holds, it holds for good: a key that maps to
    a value still maps to that value after the serving loop has taken
    any arrivals, whether the loop returned or raised.  No message
    overwrites or removes an entry. *)
Theorem stored_values_persist (self : DHTNode.t) (arrivals : list arrival)
    (key value : pyval) :
  store_lookup key (DHTNode.keystore self) = Some value ->
  store_lookup key
    (DHTNode.keystore (snd (DHTNode.serve_loop dht_hash contains arrivals self)))
  = Some value.
Proof. apply (serve_loop_keeps_values arrivals self). Qed.

End Persist.

(** ** PUT, then GET *)

Section GetAfterPut.

Variable dht_hash : pyval -> Z.
Variable contains : pyval -> pyval -> pyval -> bool.

(** X4.  On the node that handles a key itself, for a hashable key the
    store lacks: after the PUT of [value], a GET of the key is answered
    with ACK and exactly [value]; a second PUT of the key, with another
    value, is answered NACK, and a GET after it still returns [value]. *)
Theorem get_after_put (self : DHTNode.t) (key value other requester reader : pyval) :
  toward_successor dht_hash contains self key = false ->
  behind_predecessor dht_hash contains self key = true ->
  hashable key = true ->
  store_lookup key (DHTNode.keystore self) = None ->
  let stored := snd (DHTNode.put dht_hash contains key value requester self) in
  DHTNode.get dht_hash contains key reader stored
  = (Ok tt, sent reader (DHTNode.envelope "ACK" value) stored) /\
  DHTNode.put dht_hash contains key other requester stored
  = (Ok tt, sent requester (DHTNode.bare "NACK") stored) /\
  DHTNode.get dht_hash contains key reader (sent requester (DHTNode.bare "NACK") stored)
  = (Ok tt,
     sent reader (DHTNode.envelope "ACK" value)
       (sent requester (DHTNode.bare "NACK") stored)).
Proof.
  intros Hsucc Hpred Hkey Hfresh stored.
  unfold toward_successor, behind_predecessor in Hsucc, Hpred.
  assert (Hstored : stored
                    = sent requester (DHTNode.bare "ACK")
                        (DHTNode.with_keystore
                           (store_assign key value (DHTNode.keystore self)) self)).
  { subst stored. unfold DHTNode.put. se_step. rewrite Hsucc, Hpred.
    unfold store_contains, store_setitem. rewrite Hkey, Hfresh. reflexivity. }
  rewrite Hstored.
  unfold DHTNode.get, DHTNode.put. se_step. simpl.
  rewrite Hsucc, Hpred. unfold store_contains, store_getitem. rewrite Hkey.
  rewrite store_lookup_assign. repeat split.
Qed.

End GetAfterPut.

(** ** What one node sends, the next one reads *)

Section Relay.

Variable dht_hash : pyval -> Z.
Variable contains : pyval -> pyval -> pyval -> bool.

(** X5.  What [recv] hands over decides the call.  When the bytes it
    read unpickle to the envelope that [put] or [get] builds for
    relaying, the turn of the serving loop is that call again, with the
    original requester's address and not the relaying node's; when they
    unpickle to a request that names no requester (a client's own), it
    is the call with the address the datagram came from; a JOIN_REQ or
    SUCCESSOR envelope is handled with the args it carries.  When
    [pickle.loads] rejects the bytes (as it does a datagram that [recv]
    cut at 1024 bytes: the relayed envelope is longer than the one
    received) the turn raises what [pickle.loads] raised and the node
    is as it was. *)
Theorem relayed_request_is_the_same_call (self : DHTNode.t) (a : arrival) (p : payload)
    (source key value requester args : pyval) :
  DHTNode.recv a = (Some p, source) ->
  (pickle_loads p = Ok (DHTNode.put_msg key value requester) ->
   DHTNode.run_iteration dht_hash contains a self
   = DHTNode.put dht_hash contains key value requester self) /\
  (pickle_loads p = Ok (DHTNode.get_msg key requester) ->
   DHTNode.run_iteration dht_hash contains a self
   = DHTNode.get dht_hash contains key requester self) /\
  (pickle_loads p = Ok (DHTNode.envelope "PUT" (PDict [("key", key); ("value", value)])) ->
   DHTNode.run_iteration dht_hash contains a self
   = DHTNode.put dht_hash contains key value source self) /\
  (pickle_loads p = Ok (DHTNode.envelope "GET" (PDict [("key", key)])) ->
   DHTNode.run_iteration dht_hash contains a self
   = DHTNode.get dht_hash contains key source self) /\
  (pickle_loads p = Ok (DHTNode.envelope "JOIN_REQ" args) ->
   DHTNode.run_iteration dht_hash contains a self
   = DHTNode.node_join contains args self) /\
  (pickle_loads p = Ok (DHTNode.envelope "SUCCESSOR" args) ->
   DHTNode.run_iteration dht_hash contains a self
   = DHTNode.get_successor contains args self) /\
  (forall e, pickle_loads p = Raise e ->
   DHTNode.run_iteration dht_hash contains a self = (Raise e, self)).
Proof.
  intros Hrecv. unfold DHTNode.run_iteration. rewrite Hrecv.
  unfold DHTNode.method_is, DHTNode.arg. se_step.
  repeat split; intros; 
    match goal with
    | H : pickle_loads p = _ |- _ => rewrite H
    end;
    cbv beta iota zeta delta
      [DHTNode.put_msg DHTNode.get_msg DHTNode.envelope
       getitem dict_get assoc String.eqb Ascii.eqb Bool.eqb py_eqb];
    match goal with
    | |- (let (_, _) := ?c in _) = _ => destruct c as [[[]|?] ?]; reflexivity
    | |- _ => reflexivity
    end.
Qed.

End Relay.

(** ** The joining loop *)

(** X6.  While no JOIN_REP arrives the joining loop only repeats
    itself: over arrivals that are timeouts, empty datagrams or
    envelopes of any other method, a node that is not inside the DHT
    sends one JOIN_REQ, naming its address and identifier, to the
    bootstrap address per arrival, changes nothing else, and is still
    joining. *)
Theorem join_loop_retries (self : DHTNode.t) (arrivals : list arrival) :
  DHTNode.inside_dht self = false ->
  forallb ignored_while_joining arrivals = true ->
  DHTNode.join_loop arrivals self
  = (Ok [],
     DHTNode.with_socket
       (DHTNode.socket self
        ++ replicate (length arrivals) (DHTNode.dht_address self, join_req_msg self))
       self).
Proof.
  revert self. induction arrivals as [|a rest IH]; intros self Hout Hall.
  - simpl. unfold ret. rewrite app_nil_r. now destruct self.
  - simpl in Hall. apply andb_prop in Hall. destruct Hall as [Ha Hrest].
    simpl DHTNode.join_loop. se_step. rewrite Hout.
    assert (Hturn : DHTNode.join_iteration a self
                    = (Ok tt, sent (DHTNode.dht_address self) (join_req_msg self) self)).
    { unfold ignored_while_joining in Ha.
      unfold DHTNode.join_iteration, DHTNode.method_is. se_step.
      destruct (DHTNode.recv a) as [[payload|] addr']; [|reflexivity].
      destruct (pickle_loads payload) as [output|e]; [|discriminate].
      destruct (getitem output "method") as [method|e]; [|discriminate].
      apply negb_true_iff in Ha. rewrite Ha. reflexivity. }
    rewrite Hturn. rewrite IH; [| exact Hout | exact Hrest].
    unfold sent, join_req_msg. simpl. rewrite <- app_assoc. reflexivity.
Qed.

(** ** Two nodes *)

(** Read a concrete envelope: the dispatch of [run_iteration] on its
    method, leaving the handler it selects folded. *)
Ltac dispatch :=
  unfold DHTNode.run_iteration, DHTNode.method_is, DHTNode.arg;
  cbv beta iota zeta delta
    [bind lift gets modify ret raise zoom rbind DHTNode.self_
     DHTNode.recv payload_is_empty pickle_loads DHTNode.envelope DHTNode.bare
     getitem dict_get assoc String.eqb Ascii.eqb Bool.eqb py_eqb].

Section TwoNodes.

Variable dht_hash : pyval -> Z.
Variable contains : pyval -> pyval -> pyval -> bool.

Lemma run_iteration_stabilize (self : DHTNode.t) (source from_id : pyval) :
  DHTNode.run_iteration dht_hash contains
    (Datagram (Pickled (DHTNode.envelope "STABILIZE" from_id)) source) self
  = DHTNode.stabilize contains from_id source self.
Proof.
  dispatch.
  destruct (DHTNode.stabilize contains from_id source self) as [[[]|?] ?]; reflexivity.
Qed.

(** X7.  One stabilization round between a node [x] and the node [s]
    it has as successor, when [s] knows no predecessor.  On a timeout
    [x] asks PREDECESSOR of its successor address; [s] answers the
    asker with STABILIZE carrying [None]; [x], on that answer, keeps
    its successor, and sends NOTIFY naming itself to its successor
    address, followed by one lookup per finger; [s], on the NOTIFY,
    takes [x], by identifier and address, as its predecessor. *)
Theorem stabilization_round (x s : DHTNode.t) (x_source s_source : pyval) :
  node_wf x ->
  (0 < FingerTable.m_bits (DHTNode.finger_table x))%nat ->
  DHTNode.predecessor_id s = PNone ->
  let x1 := idle dht_hash contains x in
  let s1 := handle dht_hash contains x_source (DHTNode.bare "PREDECESSOR") s in
  let x2 := handle dht_hash contains s_source (DHTNode.envelope "STABILIZE" PNone) x1 in
  let s2 := handle dht_hash contains x_source (notify_msg x) s1 in
  x1 = sent (DHTNode.successor_addr x) (DHTNode.bare "PREDECESSOR") x /\
  s1 = sent x_source (DHTNode.envelope "STABILIZE" PNone) s /\
  x2 = DHTNode.with_socket
         (DHTNode.socket x1
          ++ (DHTNode.successor_addr x, notify_msg x)
             :: map (lookup_datagram contains x) (refresh_targets (DHTNode.finger_table x)))
         x /\
  s2 = DHTNode.with_predecessor_addr (DHTNode.addr x)
         (DHTNode.with_predecessor_id (PInt (DHTNode.identification x)) s1).
Proof.
  intros Hwf Hm Hpred x1 s1 x2 s2.
  assert (Hx1 : x1 = sent (DHTNode.successor_addr x) (DHTNode.bare "PREDECESSOR") x)
    by reflexivity.
  assert (Hs1 : s1 = sent x_source (DHTNode.envelope "STABILIZE" PNone) s).
  { subst s1. unfold handle, DHTNode.run_iteration, DHTNode.method_is, DHTNode.predecessor.
    simpl. se_step. rewrite Hpred. reflexivity. }
  split; [exact Hx1|]. split; [exact Hs1|]. split.
  - subst x2. unfold handle. rewrite run_iteration_stabilize, Hx1.
    rewrite stabilize_run by assumption. reflexivity.
  - subst s2. unfold handle, notify_msg, DHTNode.run_iteration, DHTNode.method_is,
      DHTNode.notify. simpl. se_step. rewrite Hs1. simpl. rewrite Hpred. reflexivity.
Qed.

Variable py_str : pyval -> string.

(** X8.  The join handshake of two fresh nodes.  [b] is constructed
    with [a]'s address as bootstrap, [a] with none.  The JOIN_REQ that
    [b]'s joining loop sends, handled by [a], makes [a] take [b] as
    successor, fill its table with [b] and answer [b] with a JOIN_REP
    naming [a]; that JOIN_REP, taken by [b]'s joining loop, makes [b]
    take [a] as successor, fill its table with [a] and enter the DHT.
    Neither has a predecessor yet. *)
Theorem two_node_join (address_a address_b : pyval) :
  DHTNode.is_none address_a = false ->
  let a := DHTNode.__init__ dht_hash py_str address_a PNone in
  let b := DHTNode.__init__ dht_hash py_str address_b address_a in
  let join_rep :=
    DHTNode.envelope "JOIN_REP"
      (PDict [("successor_id", PInt (DHTNode.identification a));
              ("successor_addr", address_a)]) in
  let a1 := handle dht_hash contains address_b (join_req_msg b) a in
  let b1 := snd (DHTNode.join_iteration (Datagram (Pickled join_rep) address_a) b) in
  DHTNode.socket b1 = [(address_a, join_req_msg b)] /\
  DHTNode.socket a1 = [(address_b, join_rep)] /\
  a1 = sent address_b join_rep
         (adopt_successor (PInt (DHTNode.identification b)) address_b a) /\
  b1 = DHTNode.with_inside_dht true
         (adopt_successor (PInt (DHTNode.identification a)) address_a
            (sent address_a (join_req_msg b) b)) /\
  DHTNode.inside_dht b = false /\
  DHTNode.inside_dht b1 = true /\
  DHTNode.predecessor_id a1 = PNone /\
  DHTNode.predecessor_id b1 = PNone.
Proof.
  intros Hboot a b join_rep a1 b1. subst a1 b1 join_rep b a.
  unfold DHTNode.__init__. rewrite Hboot.
  change (DHTNode.is_none PNone) with true. cbv iota.
  match goal with |- context [DHTNode.join_iteration _ ?x] => set (b := x) end.
  match goal with |- context [handle _ _ _ _ ?x] => set (a := x) end.
  set (join_rep := DHTNode.envelope "JOIN_REP"
                     (PDict [("successor_id", PInt (DHTNode.identification a));
                             ("successor_addr", address_a)])).
  assert (Ha1 : handle dht_hash contains address_b (join_req_msg b) a
                = sent address_b join_rep
                    (adopt_successor (PInt (DHTNode.identification b)) address_b a)).
  { unfold handle, join_req_msg. dispatch.
    rewrite (node_join_run contains a _ (PInt (DHTNode.identification b)) address_b)
      by reflexivity.
    simpl. now rewrite Z.eqb_refl. }
  assert (Hb1 : snd (DHTNode.join_iteration (Datagram (Pickled join_rep) address_a) b)
                = DHTNode.with_inside_dht true
                    (adopt_successor (PInt (DHTNode.identification a)) address_a
                       (sent address_a (join_req_msg b) b))).
  { unfold DHTNode.join_iteration, DHTNode.method_is, DHTNode.join_rep.
    se_step. simpl. reflexivity. }
  rewrite Ha1, Hb1. repeat split.
Qed.

End TwoNodes.

(** ** More on the finger table *)

Lemma list_getitem_in_range {A} (l : list A) (i : Z) :
  - Z.of_nat (length l) <= i < Z.of_nat (length l) ->
  exists x, list_getitem l i = Ok x /\ In x l.
Proof.
  intros Hi. unfold list_getitem, py_index.
  destruct (Z.leb_spec 0 i) as [Hpos|Hneg].
  - destruct (Z.ltb_spec i (Z.of_nat (length l))) as [Hlt|]; [|lia]. simpl.
    destruct (lookup_lt_is_Some_2 l (Z.to_nat i)) as [x Hx]; [lia|].
    rewrite Hx. exists x. split; [reflexivity|].
    apply list_elem_of_In. eapply list_elem_of_lookup_2. exact Hx.
  - simpl. destruct (Z.leb_spec (- Z.of_nat (length l)) i) as [Hge|]; [|lia].
    destruct (Z.ltb_spec i 0) as [_|]; [|lia]. simpl.
    destruct (lookup_lt_is_Some_2 l (Z.to_nat (Z.of_nat (length l) + i))) as [x Hx]; [lia|].
    rewrite Hx. exists x. split; [reflexivity|].
    apply list_elem_of_In. eapply list_elem_of_lookup_2. exact Hx.
Qed.

Section FindUniform.

Variable contains : pyval -> pyval -> pyval -> bool.

Lemma find_from_uniform (ft : FingerTable.t) (a identification : pyval) (idxs : list Z) :
  FingerTable.finger_table ft <> [] ->
  (forall e, In e (FingerTable.finger_table ft) -> snd e = a) ->
  (forall i, In i idxs -> 0 <= i < Z.of_nat (length (FingerTable.finger_table ft))) ->
  FingerTable.find_from contains ft identification idxs = Ok a.
Proof.
  intros Hne Hall. 
  assert (Hlen : (0 < length (FingerTable.finger_table ft))%nat).
  { destruct (FingerTable.finger_table ft); [congruence | simpl; lia]. }
  induction idxs as [|i idxs IH]; intros Hidx; simpl.
  - destruct (list_getitem_in_range (FingerTable.finger_table ft) (-1)) as (e & -> & He);
      [lia|]. simpl. f_equal. now apply Hall.
  - assert (Hi : 0 <= i < Z.of_nat (length (FingerTable.finger_table ft)))
      by (apply Hidx; left; reflexivity).
    destruct (list_getitem_in_range (FingerTable.finger_table ft) i) as (e & -> & He);
      [lia|]. simpl.
    destruct (contains _ _ identification).
    + destruct (list_getitem_in_range (FingerTable.finger_table ft) (i - 1))
        as (e' & -> & He'); [lia|]. simpl. f_equal. now apply Hall.
    + apply IH. intros j Hj. apply Hidx. right. exact Hj.
Qed.

(** X9.  While a table knows one node only, [find] can only answer
    with that node, whatever is asked and whatever [contains] says:
    on the table a node is constructed with, [find] returns the node's
    own address; after [fill(id, addr)] it returns [addr]. *)
Theorem find_knows_one_node (identification : pyval) :
  (forall (node_id : Z) (node_addr : pyval) (m_bits : nat),
     (0 < m_bits)%nat ->
     FingerTable.find contains (FingerTable.__init__ node_id node_addr m_bits) identification
     = Ok node_addr) /\
  (forall (ft : FingerTable.t) (node_id node_addr : pyval),
     table_wf ft ->
     (0 < FingerTable.m_bits ft)%nat ->
     FingerTable.find contains (snd (FingerTable.fill node_id node_addr ft)) identification
     = Ok node_addr).
Proof.
  assert (Huniform : forall (m : nat) (x : pyval * pyval) (t : FingerTable.t),
            (0 < m)%nat ->
            FingerTable.finger_table t = replicate m x ->
            FingerTable.m_bits t = m ->
            FingerTable.find contains t identification = Ok (snd x)).
  { intros m x t Hm Htable Hbits. unfold FingerTable.find. apply find_from_uniform.
    - rewrite Htable. destruct m; [lia | discriminate].
    - rewrite Htable. intros e He. apply list_elem_of_In, elem_of_replicate in He.
      now destruct He as [-> _].
    - intros i Hi. unfold range in Hi. apply in_map_iff in Hi.
      destruct Hi as (k & <- & Hk). apply in_seq in Hk.
      rewrite Htable, length_replicate. rewrite Hbits in Hk. lia. }
  split.
  - intros node_id node_addr m Hm.
    apply (Huniform m (PInt node_id, node_addr)); [exact Hm | reflexivity | reflexivity].
  - intros ft node_id node_addr Hwf Hm. rewrite fill_spec by exact Hwf.
    apply (Huniform (FingerTable.m_bits ft) (node_id, node_addr));
      [exact Hm | reflexivity | reflexivity].
Qed.

End FindUniform.

Section FirstCover.

Variable contains : pyval -> pyval -> pyval -> bool.

Lemma getIdxFromId_from_scan (ft : FingerTable.t) (id : pyval) (n : nat) : forall k : nat,
  (FingerTable.getIdxFromId_from contains ft id (map Z.of_nat (seq k n)) = PNone /\
   forall j, (k < j <= k + n)%nat -> covers contains ft id j = false) \/
  exists i : nat,
    (k < i <= k + n)%nat /\
    FingerTable.getIdxFromId_from contains ft id (map Z.of_nat (seq k n))
    = PInt (Z.of_nat i) /\
    covers contains ft id i = true /\
    forall j, (k < j < i)%nat -> covers contains ft id j = false.
Proof.
  induction n as [|n IH]; intros k.
  - left. split; [reflexivity|]. intros j Hj. lia.
  - simpl. 
    assert (Hhead : contains (PInt (FingerTable.node_id ft))
                      (PInt (FingerTable.target ft (Z.of_nat k))) id
                    = covers contains ft id (S k)).
    { unfold covers, FingerTable.target. repeat f_equal. lia. }
    rewrite Hhead. destruct (covers contains ft id (S k)) eqn:Hk.
    + right. exists (S k). split; [lia|]. split; [f_equal; lia|].
      split; [exact Hk|]. intros j Hj. lia.
    + destruct (IH (S k)) as [[Hnone Hall] | (i & Hi & Hsome & Hcov & Hbefore)].
      * left. split; [exact Hnone|]. intros j Hj.
        destruct (Nat.eq_dec j (S k)) as [->|]; [exact Hk | apply Hall; lia].
      * right. exists i. split; [lia|]. split; [exact Hsome|]. split; [exact Hcov|].
        intros j Hj.
        destruct (Nat.eq_dec j (S k)) as [->|]; [exact Hk | apply Hbefore; lia].
Qed.

(** X10.  [getIdxFromId] returns the smallest index in [1..m_bits]
    whose interval, from the node to the index's target, holds the
    identifier, and [None] exactly when no index does; it never returns
    an index outside the table. *)
Theorem getIdxFromId_first_cover (ft : FingerTable.t) (id : pyval) :
  (FingerTable.getIdxFromId contains ft id = PNone /\
   forall j, (1 <= j <= FingerTable.m_bits ft)%nat -> covers contains ft id j = false) \/
  exists i : nat,
    (1 <= i <= FingerTable.m_bits ft)%nat /\
    FingerTable.getIdxFromId contains ft id = PInt (Z.of_nat i) /\
    covers contains ft id i = true /\
    forall j, (1 <= j < i)%nat -> covers contains ft id j = false.
Proof.
  unfold FingerTable.getIdxFromId. rewrite (range_nat 0).
  destruct (getIdxFromId_from_scan ft id (FingerTable.m_bits ft) 0%nat)
    as [[Hnone Hall] | (i & Hi & Hsome & Hcov & Hbefore)].
  - left. split; [exact Hnone|]. intros j Hj. apply Hall. lia.
  - right. exists i. split; [lia|]. split; [exact Hsome|]. split; [exact Hcov|].
    intros j Hj. apply Hbefore. lia.
Qed.

End FirstCover.

Lemma refresh_from_entries (ft : FingerTable.t) (n : nat) : forall k : nat,
  (k + n <= length (FingerTable.finger_table ft))%nat ->
  exists entries,
    FingerTable.refresh_from ft (map Z.of_nat (seq k n)) = Ok entries /\
    length entries = n /\
    forall j e, (j < n)%nat ->
      FingerTable.finger_table ft !! (k + j)%nat = Some e ->
      entries !! j
      = Some (Z.of_nat (k + j) + 1, FingerTable.target ft (Z.of_nat (k + j)), snd e).
Proof.
  induction n as [|n IH]; intros k Hlen.
  - exists []. repeat split. intros j e Hj. lia.
  - simpl.
    assert (Hk : (k < length (FingerTable.finger_table ft))%nat) by lia.
    destruct (lookup_lt_is_Some_2 _ _ Hk) as [ek Hek].
    rewrite (list_getitem_nat _ _ _ Hek). simpl.
    destruct (IH (S k)) as (entries & Hentries & Hlength & Hnth); [lia|].
    rewrite Hentries. simpl.
    exists ((Z.of_nat k + 1, FingerTable.target ft (Z.of_nat k), snd ek) :: entries).
    split; [reflexivity|]. split; [simpl; lia|].
    intros [|j] e Hj He.
    + rewrite Nat.add_0_r in *. simpl. congruence.
    + replace (k + S j)%nat with (S k + j)%nat in * by lia.
      simpl. apply Hnth; [lia | exact He].
Qed.

Lemma refresh_from_short (ft : FingerTable.t) (n : nat) : forall k : nat,
  (k <= length (FingerTable.finger_table ft) < k + n)%nat ->
  FingerTable.refresh_from ft (map Z.of_nat (seq k n)) = Raise IndexError.
Proof.
  induction n as [|n IH]; intros k Hlen; [lia|].
  simpl. destruct (Nat.eq_dec k (length (FingerTable.finger_table ft))) as [Heq|Hne].
  - unfold list_getitem, py_index.
    destruct (Z.ltb_spec (Z.of_nat k) (Z.of_nat (length (FingerTable.finger_table ft))));
      [lia|].
    destruct (Z.ltb_spec (Z.of_nat k) 0); [lia|].
    rewrite !andb_false_r. reflexivity.
  - assert (Hk : (k < length (FingerTable.finger_table ft))%nat) by lia.
    destruct (lookup_lt_is_Some_2 _ _ Hk) as [ek Hek].
    rewrite (list_getitem_nat _ _ _ Hek). simpl.
    rewrite (IH (S k)) by lia. reflexivity.
Qed.

(** X11.  On a table of [m_bits] entries [refresh] returns, changing
    nothing, one triple per entry in table order: the entry's index
    counted from 1, the identifier [(node_id + 2^(index-1)) mod 2^m_bits]
    that the entry tracks, which lies in [[0, 2^m_bits)], and the address
    the entry holds.  On a table shorter than [m_bits] it raises
    [IndexError]. *)
Theorem refresh_lists_every_entry (ft : FingerTable.t) :
  (table_wf ft ->
   exists entries,
     FingerTable.refresh ft = Ok entries /\
     length entries = FingerTable.m_bits ft /\
     forall (i : nat) e,
       entry ft (S i) = Some e ->
       entries !! i
       = Some (Z.of_nat (S i),
               (FingerTable.node_id ft + 2 ^ Z.of_nat i)
               mod 2 ^ Z.of_nat (FingerTable.m_bits ft),
               snd e) /\
       0 <= (FingerTable.node_id ft + 2 ^ Z.of_nat i)
            mod 2 ^ Z.of_nat (FingerTable.m_bits ft)
         < 2 ^ Z.of_nat (FingerTable.m_bits ft)) /\
  ((length (FingerTable.finger_table ft) < FingerTable.m_bits ft)%nat ->
   FingerTable.refresh ft = Raise IndexError).
Proof.
  split.
  - intros Hwf. unfold table_wf in Hwf. unfold FingerTable.refresh. rewrite (range_nat 0).
    destruct (refresh_from_entries ft (FingerTable.m_bits ft) 0%nat)
      as (entries & Hrefresh & Hlength & Hnth); [lia|].
    exists entries. split; [exact Hrefresh|]. split; [exact Hlength|].
    intros i e He. simpl in He. split.
    + rewrite (Hnth i e); [| apply lookup_lt_Some in He; lia | exact He].
      unfold FingerTable.target. simpl. repeat f_equal. lia.
    + apply Z.mod_pos_bound. apply Z.pow_pos_nonneg; lia.
  - intros Hshort. unfold FingerTable.refresh. rewrite (range_nat 0).
    apply refresh_from_short. lia.
Qed.

(** X12.  [update(index, id, addr)] counts entries from 1.  For an
    index in [1..len] it overwrites that entry and no other.  Python's
    wrap-around makes an index in [1-len..0] overwrite an entry counted
    from the end, index 0 the last one.  Any other integer raises
    [IndexError], and an index that is no integer raises [TypeError],
    in both cases before the table is touched. *)
Theorem update_bounds (ft : FingerTable.t) (node_id node_addr : pyval) :
  let len := Z.of_nat (length (FingerTable.finger_table ft)) in
  (forall index, 1 <= index <= len ->
     FingerTable.update (PInt index) node_id node_addr ft
     = (Ok tt,
        FingerTable.with_finger_table
          (<[Z.to_nat (index - 1) := (node_id, node_addr)]> (FingerTable.finger_table ft))
          ft)) /\
  (forall index, 1 - len <= index <= 0 ->
     FingerTable.update (PInt index) node_id node_addr ft
     = (Ok tt,
        FingerTable.with_finger_table
          (<[Z.to_nat (len + index - 1) := (node_id, node_addr)]>
             (FingerTable.finger_table ft))
          ft)) /\
  (forall index, index < 1 - len \/ len < index ->
     FingerTable.update (PInt index) node_id node_addr ft = (Raise IndexError, ft)) /\
  (forall index, (forall z, index <> PInt z) ->
     FingerTable.update index node_id node_addr ft = (Raise TypeError, ft)).
Proof.
  intros len. subst len.
  unfold FingerTable.update, FingerTable.setitem, list_setitem, py_index. se_step.
  repeat split.
  - intros index Hi. simpl py_sub1. cbv iota.
    destruct (Z.leb_spec 0 (index - 1)); [|lia].
    destruct (Z.ltb_spec (index - 1) (Z.of_nat (length (FingerTable.finger_table ft))));
      [|lia].
    reflexivity.
  - intros index Hi. simpl py_sub1. cbv iota.
    destruct (Z.leb_spec 0 (index - 1)); [lia|].
    destruct (Z.leb_spec (- Z.of_nat (length (FingerTable.finger_table ft))) (index - 1));
      [|lia].
    destruct (Z.ltb_spec (index - 1) 0); [|lia].
    simpl. repeat f_equal. lia.
  - intros index Hi. simpl py_sub1. cbv iota.
    destruct (Z.leb_spec 0 (index - 1));
      destruct (Z.ltb_spec (index - 1) (Z.of_nat (length (FingerTable.finger_table ft))));
      destruct (Z.leb_spec (- Z.of_nat (length (FingerTable.finger_table ft))) (index - 1));
      destruct (Z.ltb_spec (index - 1) 0); try lia; now destruct ft.
  - intros index Hi. destruct index as [ | z | | | ]; try (now destruct ft).
    exfalso. now apply (Hi z).
Qed.

(** ** Refresh targets and the index they come back to *)

Lemma sub_mod_range (N o x : Z) :
  0 <= o < N -> 0 <= x < N ->
  (x - o) mod N = if o <=? x then x - o else x - o + N.
Proof.
  intros Ho Hx. destruct (Z.leb_spec o x).
  - apply Z.mod_small. lia.
  - rewrite <- (Z_mod_plus_full (x - o) 1 N), Z.mul_1_l. apply Z.mod_small. lia.
Qed.

(** The spec's [contains] is the ring interval, for any modulus. *)
Lemma ring_contains_interval (N : Z) : ring_interval Ring.contains N.
Proof.
  intros o b x Ho Hb Hx Hne. unfold Ring.contains.
  rewrite (sub_mod_range N o x), (sub_mod_range N o b) by assumption.
  destruct (Z.ltb_spec b o); destruct (Z.leb_spec o x); destruct (Z.leb_spec o b);
    try lia;
    rewrite ?orb_true_iff, ?andb_true_iff, ?Z.ltb_lt, ?Z.leb_le; lia.
Qed.

Section Targets.

Variable contains : pyval -> pyval -> pyval -> bool.

Lemma target_offset (ft : FingerTable.t) (i : nat) :
  (1 <= i <= FingerTable.m_bits ft)%nat ->
  let N := 2 ^ Z.of_nat (FingerTable.m_bits ft) in
  let t := (FingerTable.node_id ft + 2 ^ (Z.of_nat i - 1)) mod N in
  0 <= t < N /\ (t - FingerTable.node_id ft) mod N = 2 ^ (Z.of_nat i - 1)
  /\ 0 < 2 ^ (Z.of_nat i - 1) < N.
Proof.
  intros Hi N t.
  assert (HN : 0 < N) by (apply Z.pow_pos_nonneg; lia).
  assert (Hpow : 0 < 2 ^ (Z.of_nat i - 1) < N).
  { split; [apply Z.pow_pos_nonneg; lia|]. apply Z.pow_lt_mono_r; lia. }
  split; [apply Z.mod_pos_bound; exact HN|]. split; [|exact Hpow].
  subst t. rewrite Zminus_mod_idemp_l.
  replace (FingerTable.node_id ft + 2 ^ (Z.of_nat i - 1) - FingerTable.node_id ft)
    with (2 ^ (Z.of_nat i - 1)) by lia.
  apply Z.mod_small. lia.
Qed.

Lemma covers_target (ft : FingerTable.t) (i j : nat) :
  ring_interval contains (2 ^ Z.of_nat (FingerTable.m_bits ft)) ->
  0 <= FingerTable.node_id ft < 2 ^ Z.of_nat (FingerTable.m_bits ft) ->
  (1 <= i <= FingerTable.m_bits ft)%nat ->
  (1 <= j <= FingerTable.m_bits ft)%nat ->
  covers contains ft
    (PInt ((FingerTable.node_id ft + 2 ^ (Z.of_nat i - 1))
           mod 2 ^ Z.of_nat (FingerTable.m_bits ft))) j = true
  <-> (i <= j)%nat.
Proof.
  intros Hring Hid Hi Hj. unfold covers.
  destruct (target_offset ft i Hi) as (Hti & Hoi & Hpi).
  destruct (target_offset ft j Hj) as (Htj & Hoj & Hpj).
  assert (Hne : FingerTable.node_id ft
                <> (FingerTable.node_id ft + 2 ^ (Z.of_nat j - 1))
                   mod 2 ^ Z.of_nat (FingerTable.m_bits ft)).
  { intros Heq. rewrite <- Heq, Z.sub_diag, Z.mod_0_l in Hoj; lia. }
  pose proof (Hring _ _ _ Hid Htj Hti Hne) as Hiff.
  rewrite Hoi, Hoj in Hiff. split.
  - intros Hc. apply Hiff in Hc. destruct Hc as [_ Hle].
    apply Z.pow_le_mono_r_iff in Hle; lia.
  - intros Hle. apply Hiff. split; [lia|]. apply Z.pow_le_mono_r; lia.
Qed.

Lemma getIdxFromId_target (ft : FingerTable.t) (i : nat) :
  ring_interval contains (2 ^ Z.of_nat (FingerTable.m_bits ft)) ->
  0 <= FingerTable.node_id ft < 2 ^ Z.of_nat (FingerTable.m_bits ft) ->
  (1 <= i <= FingerTable.m_bits ft)%nat ->
  FingerTable.getIdxFromId contains ft
    (PInt ((FingerTable.node_id ft + 2 ^ (Z.of_nat i - 1))
           mod 2 ^ Z.of_nat (FingerTable.m_bits ft)))
  = PInt (Z.of_nat i).
Proof.
  intros Hring Hid Hi.
  unfold FingerTable.getIdxFromId. rewrite (range_nat 0).
  destruct (getIdxFromId_from_scan contains ft
              (PInt ((FingerTable.node_id ft + 2 ^ (Z.of_nat i - 1))
                     mod 2 ^ Z.of_nat (FingerTable.m_bits ft)))
              (FingerTable.m_bits ft) 0%nat)
    as [[_ Hall] | (i0 & Hi0 & Hsome & Hcov & Hbefore)].
  - assert (Hc : covers contains ft
                   (PInt ((FingerTable.node_id ft + 2 ^ (Z.of_nat i - 1))
                          mod 2 ^ Z.of_nat (FingerTable.m_bits ft))) i = true)
      by (apply covers_target; try assumption; lia).
    rewrite Hall in Hc by lia. discriminate.
  - rewrite Hsome.
    assert (Hle : (i <= i0)%nat)
      by (apply (covers_target ft i i0 Hring Hid Hi); [lia | exact Hcov]).
    destruct (Nat.eq_dec i i0) as [->|Hne]; [reflexivity|].
    assert (Hc : covers contains ft
                   (PInt ((FingerTable.node_id ft + 2 ^ (Z.of_nat i - 1))
                          mod 2 ^ Z.of_nat (FingerTable.m_bits ft))) i = true)
      by (apply covers_target; try assumption; lia).
    rewrite Hbefore in Hc by lia. discriminate.
Qed.

(** X13.  When [contains] is the ring interval and the node's
    identifier is on the ring, [getIdxFromId] inverts [refresh]: the
    identifier that entry [i] tracks, [(node_id + 2^(i-1)) mod 2^m_bits],
    is mapped back to [i], for every [i] in [1..m_bits]. *)
Theorem getIdxFromId_inverts_refresh (ft : FingerTable.t) (i : nat) :
  ring_interval contains (2 ^ Z.of_nat (FingerTable.m_bits ft)) ->
  0 <= FingerTable.node_id ft < 2 ^ Z.of_nat (FingerTable.m_bits ft) ->
  (1 <= i <= FingerTable.m_bits ft)%nat ->
  FingerTable.getIdxFromId contains ft
    (PInt ((FingerTable.node_id ft + 2 ^ (Z.of_nat i - 1))
           mod 2 ^ Z.of_nat (FingerTable.m_bits ft)))
  = PInt (Z.of_nat i).
Proof. exact (getIdxFromId_target ft i). Qed.

Variable dht_hash : pyval -> Z.

(** X14.  One step of finger-table convergence.  [contains] is the
    ring interval and the identifier the node's table records is on
    the ring.  When the target of entry [i] lies between the node and
    its successor, the lookup the node runs for it during stabilization
    is an answer addressed to the node itself; once the serving loop
    takes that answer, entry [i] holds the node's successor, and
    nothing else in the node has changed. *)
Theorem refresh_reply_sets_entry (self : DHTNode.t) (source : pyval) (i : nat) :
  let ft := DHTNode.finger_table self in
  let target := (FingerTable.node_id ft + 2 ^ (Z.of_nat i - 1))
                mod 2 ^ Z.of_nat (FingerTable.m_bits ft) in
  ring_interval contains (2 ^ Z.of_nat (FingerTable.m_bits ft)) ->
  node_wf self ->
  0 <= FingerTable.node_id ft < 2 ^ Z.of_nat (FingerTable.m_bits ft) ->
  (1 <= i <= FingerTable.m_bits ft)%nat ->
  contains (PInt (DHTNode.identification self)) (DHTNode.successor_id self) (PInt target)
  = true ->
  fst (lookup_datagram contains self target) = DHTNode.addr self /\
  DHTNode.run_iteration dht_hash contains
    (Datagram (Pickled (snd (lookup_datagram contains self target))) source) self
  = (Ok tt,
     DHTNode.with_finger_table
       (FingerTable.with_finger_table
          (<[Nat.pred i := (DHTNode.successor_id self, DHTNode.successor_addr self)]>
             (FingerTable.finger_table ft))
          ft)
       self).
Proof.
  intros ft target Hring Hwf Hid Hi Hbetween.
  unfold lookup_datagram. rewrite Hbetween. split; [reflexivity|].
  cbv beta iota delta [snd].
  dispatch. unfold DHTNode.successor_rep, DHTNode.arg. dispatch.
  unfold DHTNode.on_finger_table. se_step.
  fold ft. fold target. subst target.
  rewrite (getIdxFromId_target ft i Hring Hid Hi).
  destruct i as [|i]; [lia|].
  rewrite update_int_spec by (unfold node_wf, table_wf in Hwf; fold ft in Hwf; lia).
  reflexivity.
Qed.

End Targets.

(** ** The predecessor pointer *)

Section Predecessor.

Variable contains : pyval -> pyval -> pyval -> bool.

(** X15.  NOTIFY leaves the node with the closer of the two
    candidates.  [contains] is the ring interval on identifiers below
    [N]; the node's predecessor [p] and the notifier [c] are on the
    ring, [p] other than the node itself.  With [d q] the number of
    clockwise steps from [q] to the node: either the node takes [c], id
    and address together, and [c] is strictly closer than [p]; or it
    keeps what it has, and [c] is no closer than [p]. *)
Theorem notify_closes_in (self : DHTNode.t) (N p c : Z) (address : pyval) :
  ring_interval contains N ->
  0 <= DHTNode.identification self < N ->
  0 <= p < N ->
  0 <= c < N ->
  p <> DHTNode.identification self ->
  DHTNode.predecessor_id self = PInt p ->
  let args := PDict [("predecessor_id", PInt c); ("predecessor_addr", address)] in
  let d q := (DHTNode.identification self - q) mod N in
  (DHTNode.notify contains args self
   = (Ok tt,
      DHTNode.with_predecessor_addr address (DHTNode.with_predecessor_id (PInt c) self))
   /\ d c < d p)
  \/
  (DHTNode.notify contains args self = (Ok tt, self) /\ d p <= d c).
Proof.
  intros Hring Hid Hp Hc Hne Hpred args d.
  pose proof (Hring p (DHTNode.identification self) c Hp Hid Hc Hne) as Hiff.
  assert (Ha : 0 <= (c - p) mod N < N) by (apply Z.mod_pos_bound; lia).
  assert (Hb : 0 <= (DHTNode.identification self - p) mod N < N)
    by (apply Z.mod_pos_bound; lia).
  assert (Hd : d c = if (c - p) mod N <=? (DHTNode.identification self - p) mod N
                     then (DHTNode.identification self - p) mod N - (c - p) mod N
                     else (DHTNode.identification self - p) mod N - (c - p) mod N + N).
  { unfold d.
    replace (DHTNode.identification self - c)
      with ((DHTNode.identification self - p) - (c - p)) by lia.
    rewrite Zminus_mod. apply sub_mod_range; assumption. }
  unfold DHTNode.notify, args. se_step. rewrite Hpred.
  cbv beta iota delta [DHTNode.is_none getitem dict_get assoc String.eqb Ascii.eqb Bool.eqb].
  destruct (contains (PInt p) (PInt (DHTNode.identification self)) (PInt c)) eqn:Hin.
  - left. split; [reflexivity|].
    destruct Hiff as [Hfwd _]. specialize (Hfwd eq_refl). rewrite Hd.
    destruct (Z.leb_spec ((c - p) mod N) ((DHTNode.identification self - p) mod N));
      unfold d; lia.
  - right. split; [reflexivity|].
    assert (Hout : ~ (0 < (c - p) mod N <= (DHTNode.identification self - p) mod N)).
    { intros H. apply Hiff in H. discriminate. }
    rewrite Hd.
    destruct (Z.leb_spec ((c - p) mod N) ((DHTNode.identification self - p) mod N));
      unfold d; lia.
Qed.

End Predecessor.

(** ** From joining to serving *)

Section JoinThenServe.

Variable dht_hash : pyval -> Z.
Variable contains : pyval -> pyval -> pyval -> bool.

Lemma join_loop_waits (waiting more : list arrival) : forall self : DHTNode.t,
  DHTNode.inside_dht self = false ->
  forallb ignored_while_joining waiting = true ->
  DHTNode.join_loop (waiting ++ more)%list self
  = DHTNode.join_loop more
      (DHTNode.with_socket
         (DHTNode.socket self
          ++ replicate (length waiting) (DHTNode.dht_address self, join_req_msg self))
         self).
Proof.
  induction waiting as [|a rest IH]; intros self Hout Hall.
  - simpl. rewrite app_nil_r. now destruct self.
  - simpl in Hall. apply andb_prop in Hall. destruct Hall as [Ha Hrest].
    simpl DHTNode.join_loop. se_step. rewrite Hout.
    assert (Hturn : DHTNode.join_iteration a self
                    = (Ok tt, sent (DHTNode.dht_address self) (join_req_msg self) self)).
    { unfold ignored_while_joining in Ha.
      unfold DHTNode.join_iteration, DHTNode.method_is. se_step.
      destruct (DHTNode.recv a) as [[payload|] addr']; [|reflexivity].
      destruct (pickle_loads payload) as [output|e]; [|discriminate].
      destruct (getitem output "method") as [method|e]; [|discriminate].
      apply negb_true_iff in Ha. rewrite Ha. reflexivity. }
    rewrite Hturn. rewrite IH; [| exact Hout | exact Hrest].
    unfold sent, join_req_msg. simpl. rewrite <- app_assoc. reflexivity.
Qed.

(** X16.  [run] on a node constructed with a bootstrap address.  While
    the arrivals are timeouts, empty datagrams or envelopes other than
    JOIN_REP, it sends one JOIN_REQ each to the bootstrap address; the
    first JOIN_REP, from whatever address, costs one more JOIN_REQ,
    gives the node its successor and a table filled with it, and ends
    the joining; what arrives afterwards is handled by the serving loop
    from that state.  Nothing that arrived before the JOIN_REP is
    handled as a request. *)
Theorem run_joins_then_serves (self : DHTNode.t) (waiting rest : list arrival)
    (source successor_id successor_addr : pyval) :
  node_wf self ->
  DHTNode.inside_dht self = false ->
  forallb ignored_while_joining waiting = true ->
  let join_rep :=
    DHTNode.envelope "JOIN_REP"
      (PDict [("successor_id", successor_id); ("successor_addr", successor_addr)]) in
  let joined :=
    DHTNode.with_inside_dht true
      (adopt_successor successor_id successor_addr
         (DHTNode.with_socket
            (DHTNode.socket self
             ++ replicate (S (length waiting)) (DHTNode.dht_address self, join_req_msg self))
            self)) in
  DHTNode.run dht_hash contains
    (waiting ++ Datagram (Pickled join_rep) source :: rest)%list self
  = DHTNode.serve_loop dht_hash contains rest joined.
Proof.
  intros Hwf Hout Hall join_rep joined.
  unfold DHTNode.run. unfold bind at 1.
  rewrite (join_loop_waits waiting _ self Hout Hall).
  set (self1 := DHTNode.with_socket _ self).
  assert (Hturn : DHTNode.join_iteration (Datagram (Pickled join_rep) source) self1
                  = (Ok tt, joined)).
  { unfold DHTNode.join_iteration, DHTNode.method_is, DHTNode.join_rep, join_rep.
    se_step.
    cbv beta iota zeta delta
      [DHTNode.recv payload_is_empty pickle_loads DHTNode.envelope
       getitem dict_get assoc String.eqb Ascii.eqb Bool.eqb py_eqb].
    unfold DHTNode.on_finger_table. se_step.
    rewrite fill_spec by exact Hwf.
    subst joined self1. unfold adopt_successor, sent, join_req_msg. simpl.
    rewrite <- app_assoc, <- replicate_cons_app. reflexivity. }
  simpl DHTNode.join_loop. se_step.
  replace (DHTNode.inside_dht self1) with false by (symmetry; exact Hout).
  rewrite Hturn.
  assert (Hdone : DHTNode.join_loop rest joined = (Ok rest, joined))
    by (destruct rest; reflexivity).
  rewrite Hdone. reflexivity.
Qed.

End JoinThenServe.

(** ** The properties above on the sample ring *)

(** [stored_values_persist] at node 110 in the ring of two, holding
    [n -> first]: a second PUT of [n] and a datagram that is no pickle
    (which ends the loop with an error) leave the entry as it was. *)
Lemma stored_values_persist_witness :
  store_lookup (PStr "n")
    (DHTNode.keystore
       (DHTNode.with_keystore [(PStr "n", PStr "first")] Sample.n110_ring2))
  = Some (PStr "first") /\
  store_lookup (PStr "n")
    (DHTNode.keystore
       (snd (DHTNode.serve_loop Ring.dht_hash Ring.contains
               [Sample.client_put "n" "second"; Sample.garbage]
               (DHTNode.with_keystore [(PStr "n", PStr "first")] Sample.n110_ring2))))
  = Some (PStr "first").
Proof.
  split; [reflexivity|].
  apply (stored_values_persist Ring.dht_hash Ring.contains
           (DHTNode.with_keystore [(PStr "n", PStr "first")] Sample.n110_ring2)
           [Sample.client_put "n" "second"; Sample.garbage]
           (PStr "n") (PStr "first")).
  reflexivity.
Defined.

(** [relayed_request_is_the_same_call] at node 110 in the ring of two:
    the PUT of a client, relayed by node 108, is the client's [put];
    a datagram that arrives as a pickle cut short raises [EOFError]. *)
Lemma relayed_request_is_the_same_call_witness :
  DHTNode.run_iteration Ring.dht_hash Ring.contains
    (Sample.from_node 108 (DHTNode.put_msg (PStr "n") (PStr "first") Sample.client))
    Sample.n110_ring2
  = DHTNode.put Ring.dht_hash Ring.contains (PStr "n") (PStr "first") Sample.client
      Sample.n110_ring2 /\
  DHTNode.run_iteration Ring.dht_hash Ring.contains Sample.truncated Sample.n110_ring2
  = (Raise EOFError, Sample.n110_ring2).
Proof.
  split.
  - destruct (relayed_request_is_the_same_call Ring.dht_hash Ring.contains
                Sample.n110_ring2
                (Sample.from_node 108
                   (DHTNode.put_msg (PStr "n") (PStr "first") Sample.client))
                (Pickled (DHTNode.put_msg (PStr "n") (PStr "first") Sample.client))
                (Sample.host 5108) (PStr "n") (PStr "first") Sample.client PNone eq_refl)
      as (Hput & _).
    apply Hput. reflexivity.
  - destruct (relayed_request_is_the_same_call Ring.dht_hash Ring.contains
                Sample.n110_ring2 Sample.truncated (Rejected EOFError)
                Sample.client PNone PNone PNone PNone eq_refl)
      as (_ & _ & _ & _ & _ & _ & Hcut).
    apply Hcut. reflexivity.
Defined.

(** [get_after_put] at node 110 in the ring of two, for the key [n],
    which hashes to 110. *)
Lemma get_after_put_witness :
  let stored :=
    snd (DHTNode.put Ring.dht_hash Ring.contains (PStr "n") (PStr "first")
           Sample.client Sample.n110_ring2) in
  DHTNode.get Ring.dht_hash Ring.contains (PStr "n") (Sample.host 6001) stored
  = (Ok tt, sent (Sample.host 6001) (DHTNode.envelope "ACK" (PStr "first")) stored) /\
  DHTNode.put Ring.dht_hash Ring.contains (PStr "n") (PStr "second") Sample.client stored
  = (Ok tt, sent Sample.client (DHTNode.bare "NACK") stored) /\
  DHTNode.get Ring.dht_hash Ring.contains (PStr "n") (Sample.host 6001)
    (sent Sample.client (DHTNode.bare "NACK") stored)
  = (Ok tt,
     sent (Sample.host 6001) (DHTNode.envelope "ACK" (PStr "first"))
       (sent Sample.client (DHTNode.bare "NACK") stored)).
Proof.
  assert (Hahead : toward_successor Ring.dht_hash Ring.contains Sample.n110_ring2 (PStr "n")
                   = false) by (vm_compute; reflexivity).
  assert (Hbehind : behind_predecessor Ring.dht_hash Ring.contains Sample.n110_ring2
                      (PStr "n") = true) by (vm_compute; reflexivity).
  assert (Hfresh : store_lookup (PStr "n") (DHTNode.keystore Sample.n110_ring2) = None)
    by (vm_compute; reflexivity).
  exact (get_after_put Ring.dht_hash Ring.contains Sample.n110_ring2
           (PStr "n") (PStr "first") (PStr "second") Sample.client (Sample.host 6001)
           Hahead Hbehind eq_refl Hfresh).
Defined.

(** [join_loop_retries] at the joining node of port 5108: a timeout, an
    empty datagram and an envelope that is no JOIN_REP cost it three
    JOIN_REQ to the bootstrap address. *)
Lemma join_loop_retries_witness :
  DHTNode.join_loop
    [TimedOut; Datagram Empty Sample.client;
     Sample.from_node 110 (DHTNode.bare "HELLO")]
    Sample.joining
  = (Ok [],
     DHTNode.with_socket
       (replicate 3 (Sample.host 5110, join_req_msg Sample.joining))
       Sample.joining).
Proof.
  apply (join_loop_retries Sample.joining
           [TimedOut; Datagram Empty Sample.client;
            Sample.from_node 110 (DHTNode.bare "HELLO")]);
    vm_compute; reflexivity.
Defined.

(** [stabilization_round] between node 100, whose successor is 108, and
    node 108, which knows no predecessor: after the round 108 has 100
    as predecessor. *)
Lemma stabilization_round_witness :
  let x := Sample.n100_108 in
  let s := Sample.singleton 108 (Sample.host 5108) in
  let s1 := handle Ring.dht_hash Ring.contains (Sample.host 5100)
              (DHTNode.bare "PREDECESSOR") s in
  let s2 := handle Ring.dht_hash Ring.contains (Sample.host 5100) (notify_msg x) s1 in
  s1 = sent (Sample.host 5100) (DHTNode.envelope "STABILIZE" PNone) s /\
  DHTNode.predecessor_id s2 = PInt 100 /\
  DHTNode.predecessor_addr s2 = Sample.host 5100.
Proof.
  intros x s s1 s2.
  assert (Hwf : node_wf x) by reflexivity.
  assert (Hm : (0 < FingerTable.m_bits (DHTNode.finger_table x))%nat)
    by (vm_compute; lia).
  destruct (stabilization_round Ring.dht_hash Ring.contains x s
              (Sample.host 5100) (Sample.host 5108) Hwf Hm eq_refl)
    as (_ & Hs1 & _ & Hs2).
  split; [exact Hs1|].
  subst s2 s1. rewrite Hs2. split; reflexivity.
Defined.

(** [two_node_join] for the nodes at ports 5110 and 5108 on the ring of
    1024: after the handshake each has the other as successor. *)
Lemma two_node_join_witness :
  let a := Sample.node (Sample.host 5110) PNone in
  let b := Sample.joining in
  let join_rep :=
    DHTNode.envelope "JOIN_REP"
      (PDict [("successor_id", PInt (DHTNode.identification a));
              ("successor_addr", Sample.host 5110)]) in
  let a1 := handle Ring.dht_hash Ring.contains (Sample.host 5108) (join_req_msg b) a in
  let b1 := snd (DHTNode.join_iteration
                   (Datagram (Pickled join_rep) (Sample.host 5110)) b) in
  DHTNode.successor_id a1 = PInt (DHTNode.identification b) /\
  DHTNode.successor_id b1 = PInt (DHTNode.identification a) /\
  DHTNode.inside_dht b1 = true.
Proof.
  intros a b join_rep a1 b1.
  destruct (two_node_join Ring.dht_hash Ring.contains Sample.py_str
              (Sample.host 5110) (Sample.host 5108) eq_refl)
    as (_ & _ & Ha1 & Hb1 & _ & Hin & _).
  split; [|split].
  - subst a1. unfold Sample.joining, Sample.node in *. subst b a.
    rewrite Ha1. reflexivity.
  - subst b1. unfold Sample.joining, Sample.node in *. subst b a join_rep.
    rewrite Hb1. reflexivity.
  - exact Hin.
Defined.

(** [getIdxFromId_inverts_refresh] on the table of node 110, on the
    ring of 1024: entry 3 tracks identifier 114, and 114 is mapped back
    to 3. *)
Lemma getIdxFromId_inverts_refresh_witness :
  FingerTable.getIdxFromId Ring.contains (DHTNode.finger_table Sample.n110) (PInt 114)
  = PInt 3.
Proof.
  apply (getIdxFromId_inverts_refresh Ring.contains
           (DHTNode.finger_table Sample.n110) 3).
  - apply ring_contains_interval.
  - vm_compute. split; [discriminate | reflexivity].
  - vm_compute. lia.
Defined.

(** [refresh_reply_sets_entry] at node 110 in the ring of two: the
    lookup of 114, the identifier its entry 3 tracks, is an answer to
    itself, and taking it leaves the entry at its successor 108. *)
Lemma refresh_reply_sets_entry_witness :
  fst (lookup_datagram Ring.contains Sample.n110_ring2 114) = Sample.host 5110 /\
  entry
    (DHTNode.finger_table
       (handle Ring.dht_hash Ring.contains (Sample.host 5110)
          (snd (lookup_datagram Ring.contains Sample.n110_ring2 114))
          Sample.n110_ring2))
    3
  = Some (PInt 108, Sample.host 5108).
Proof.
  assert (Hwf : node_wf Sample.n110_ring2) by reflexivity.
  assert (Hid : 0 <= FingerTable.node_id (DHTNode.finger_table Sample.n110_ring2)
                < 2 ^ Z.of_nat (FingerTable.m_bits (DHTNode.finger_table Sample.n110_ring2)))
    by (vm_compute; split; [discriminate | reflexivity]).
  assert (Hi : (1 <= 3 <= FingerTable.m_bits (DHTNode.finger_table Sample.n110_ring2))%nat)
    by (vm_compute; lia).
  destruct (refresh_reply_sets_entry Ring.contains Ring.dht_hash Sample.n110_ring2
              (Sample.host 5110) 3
              (ring_contains_interval _) Hwf Hid Hi eq_refl)
    as [Hto Hrun].
  split; [exact Hto|].
  unfold handle. 
  change (lookup_datagram Ring.contains Sample.n110_ring2 114)
    with (lookup_datagram Ring.contains Sample.n110_ring2
            ((FingerTable.node_id (DHTNode.finger_table Sample.n110_ring2)
              + 2 ^ (Z.of_nat 3 - 1))
             mod 2 ^ Z.of_nat (FingerTable.m_bits (DHTNode.finger_table Sample.n110_ring2)))).
  rewrite Hrun. reflexivity.
Defined.

(** [notify_closes_in] at node 110 with predecessor 105, notified by
    node 108: 108 is two steps behind 110, 105 five, and the node takes
    108 with its address. *)
Lemma notify_closes_in_witness :
  DHTNode.notify Ring.contains (Sample.notify_args 108) Sample.n110_between
  = (Ok tt,
     DHTNode.with_predecessor_addr (Sample.host 5108)
       (DHTNode.with_predecessor_id (PInt 108) Sample.n110_between)).
Proof.
  assert (Hid : 0 <= DHTNode.identification Sample.n110_between < 1024)
    by (vm_compute; split; [discriminate | reflexivity]).
  assert (Hne : 105 <> DHTNode.identification Sample.n110_between)
    by (vm_compute; discriminate).
  destruct (notify_closes_in Ring.contains Sample.n110_between 1024 105 108
              (Sample.host 5108) (ring_contains_interval 1024) Hid
              ltac:(lia) ltac:(lia) Hne eq_refl)
    as [[Hrun _] | [_ Hfar]].
  - exact Hrun.
  - exfalso. vm_compute in Hfar. apply Hfar. reflexivity.
Defined.

(** [run_joins_then_serves] at the joining node of port 5108: after a
    timeout and the JOIN_REP of node 110, a client's PUT is served. *)
Lemma run_joins_then_serves_witness :
  DHTNode.run Ring.dht_hash Ring.contains
    [TimedOut;
     Sample.from_node 110
       (DHTNode.envelope "JOIN_REP"
          (PDict [("successor_id", PInt 110); ("successor_addr", Sample.host 5110)]));
     Sample.client_put "n" "first"]
    Sample.joining
  = DHTNode.serve_loop Ring.dht_hash Ring.contains [Sample.client_put "n" "first"]
      (DHTNode.with_inside_dht true
         (adopt_successor (PInt 110) (Sample.host 5110)
            (DHTNode.with_socket
               (replicate 2 (Sample.host 5110, join_req_msg Sample.joining))
               Sample.joining))).
Proof.
  apply (run_joins_then_serves Ring.dht_hash Ring.contains Sample.joining
           [TimedOut] [Sample.client_put "n" "first"] (Sample.host 5110)
           (PInt 110) (Sample.host 5110));
    vm_compute; reflexivity.
Defined.
